(** * GitHub repository analyzer: the data-acquisition core of [app.py]

    A shallow embedding of the fetch and aggregation functions of [app.py]
    ([check_rate_limit], [handle_github_error], [fetch_repo_data],
    [fetch_language_stats], [fetch_commit_activity], [extract_repo_info],
    [format_date]), of its reading of uploaded files
    ([process_uploaded_file]), its error display ([display_error_message])
    and its two language tables, with the properties the specification states
    about them and further properties read off the code.

    Python exceptions are an explicit error monad, [try]/[except] is
    [try_except]; floats are binary64 numbers rounded to nearest, ties to
    even; the network, the clock's time zone and the interpreter's exception
    texts are parameters gathered in the record [world]. *)

From Stdlib Require Import ZArith List String Ascii Bool Lia QArith Qabs Qfield Qround
  Qpower Lqa DecimalString.
Import ListNotations.

Local Open Scope string_scope.
Local Open Scope Z_scope.

(** ** JSON values, as [response.json()] hands them to the code.

    Numbers are the integers of the three payloads (counts and Unix
    timestamps); an object is its list of items in insertion order, keys
    unique as in a Python [dict]. *)

#[warnings="-register-all"]
Inductive json : Type :=
| JNull
| JBool (b : bool)
| JInt (n : Z)
| JStr (s : string)
| JArr (items : list json)
| JObj (fields : list (string * json)).

(** ** Exceptions *)

(** Exceptions raised by the interpreter and the libraries, each with what
    its text depends on: the operation and the offending operand, the key,
    the literal that did not parse. [TimestampError] stands for what
    [datetime.fromtimestamp] raises on an instant it cannot convert
    ([OverflowError], [OSError] or [ValueError], by platform);
    [RequestException] for a transport failure that is neither a timeout nor a
    connection error, with its own text. *)
Inductive py_error : Type :=
| TypeError (operation : string) (operand : json)
| AttributeError (attribute : string) (operand : json)
| KeyError (key : json)
| IndexError (container : json)
| ValueError (operation : string) (literal : string)
| ZeroDivisionError
| OverflowError
| TimestampError (instant : Z)
| JSONDecodeError (body : string)
| RequestException (reason : string).

(** [Timeout] and [ConnectionError] are [requests.Timeout] and
    [requests.ConnectionError]; [GitHubAPIError] is the class of [app.py] with
    its three attributes ([None] is the constructor's default). *)
Inductive exn : Type :=
| Timeout
| ConnectionError
| GitHubAPIError (message : string) (status_code : option Z)
                 (remaining_calls : option string)
| PyError (e : py_error).

Inductive result (A : Type) : Type :=
| Ok (a : A)
| Raise (e : exn).
Arguments Ok {A} a.
Arguments Raise {A} e.

Definition bind {A B : Type} (c : result A) (k : A -> result B) : result B :=
  match c with
  | Ok a => k a
  | Raise e => Raise e
  end.

Declare Scope py_scope.
Delimit Scope py_scope with py.
Notation "x <- c ;; k" := (bind c (fun x => k))
  (at level 61, c at next level, right associativity) : py_scope.
Notation "c ;;; k" := (bind c (fun _ => k))
  (at level 61, right associativity) : py_scope.
Local Open Scope py_scope.

(** [try: c  except ...: h e] *)
Definition try_except {A : Type} (c : result A) (h : exn -> result A) : result A :=
  match c with
  | Ok a => Ok a
  | Raise e => h e
  end.

(** ** Responses and the transport *)

(** A [requests.Response]: [json_body] is what [response.json()] returns,
    [None] when the body is not JSON. *)
Record response : Type := {
  status_code : Z;
  headers : list (string * string);
  text : string;
  json_body : option json
}.

(** How [requests.get] ends. *)
Inductive outcome : Type :=
| Responded (r : response)
| TimedOut
| ConnectionFailed
| RequestFailed (reason : string).

Definition requests_get_result (o : outcome) : result response :=
  match o with
  | Responded r => Ok r
  | TimedOut => Raise Timeout
  | ConnectionFailed => Raise ConnectionError
  | RequestFailed reason => Raise (PyError (RequestException reason))
  end.

Definition response_json (r : response) : result json :=
  match json_body r with
  | Some j => Ok j
  | None => Raise (PyError (JSONDecodeError (text r)))
  end.

(** ** What the code takes from its environment *)

Record world : Type := {
  (** [requests.get(url, ...)] *)
  http_get : string -> outcome;
  (** [int(s)] on a header value, [None] when it raises [ValueError] *)
  py_int : string -> option Z;
  (** [datetime.fromtimestamp(t).strftime('%H:%M:%S')] in the local zone,
      [None] when [fromtimestamp] raises *)
  strftime_hms : Z -> option string;
  (** [datetime.fromtimestamp(t).strftime('%Y-%m-%d')] *)
  strftime_ymd : Z -> option string;
  (** [datetime.strptime(s, "%Y-%m-%dT%H:%M:%SZ").strftime("%Y-%m-%d")],
      [None] when [s] does not match the format *)
  strptime_ymd : string -> option string;
  (** [str(e)] of an exception that is not a [GitHubAPIError] *)
  exc_text : exn -> string
}.

(** ** Python primitives on JSON values *)

Fixpoint assoc {A : Type} (k : string) (l : list (string * A)) : option A :=
  match l with
  | [] => None
  | (k', v) :: t => if (k' =? k)%string then Some v else assoc k t
  end.

(** [bool(j)] *)
Definition truthy (j : json) : bool :=
  match j with
  | JNull => false
  | JBool b => b
  | JInt n => negb (n =? 0)
  | JStr s => negb (s =? "")%string
  | JArr items => match items with [] => false | _ => true end
  | JObj fields => match fields with [] => false | _ => true end
  end.

(** The integer a value counts as in the arithmetic [operation]: [bool] is a
    subclass of [int]. *)
Definition as_number (operation : string) (j : json) : result Z :=
  match j with
  | JInt n => Ok n
  | JBool b => Ok (if b then 1 else 0)
  | _ => Raise (PyError (TypeError operation j))
  end.

(** [j[k]] for a string key *)
Definition getitem (j : json) (k : string) : result json :=
  match j with
  | JObj fields =>
      match assoc k fields with
      | Some v => Ok v
      | None => Raise (PyError (KeyError (JStr k)))
      end
  | _ => Raise (PyError (TypeError "[]" j))
  end.

(** [j[i]] for an index [i >= 0] *)
Definition getitem_index (j : json) (i : nat) : result json :=
  match j with
  | JArr items =>
      match nth_error items i with
      | Some v => Ok v
      | None => Raise (PyError (IndexError j))
      end
  | JStr s =>
      match String.get i s with
      | Some c => Ok (JStr (String c ""))
      | None => Raise (PyError (IndexError j))
      end
  | JObj _ => Raise (PyError (KeyError (JInt (Z.of_nat i))))
  | _ => Raise (PyError (TypeError "[]" j))
  end.

(** [j.get(k, default)] *)
Definition dict_get (j : json) (k : string) (default : json) : result json :=
  match j with
  | JObj fields =>
      match assoc k fields with
      | Some v => Ok v
      | None => Ok default
      end
  | _ => Raise (PyError (AttributeError "get" j))
  end.

(** [j.items()] and [j.values()] *)
Definition dict_items (j : json) : result (list (string * json)) :=
  match j with
  | JObj fields => Ok fields
  | _ => Raise (PyError (AttributeError "items" j))
  end.

Definition dict_values (j : json) : result (list json) :=
  match j with
  | JObj fields => Ok (map snd fields)
  | _ => Raise (PyError (AttributeError "values" j))
  end.

Fixpoint chars (s : string) : list json :=
  match s with
  | EmptyString => []
  | String c t => JStr (String c "") :: chars t
  end.

(** [for x in j] *)
Definition py_iter (j : json) : result (list json) :=
  match j with
  | JArr items => Ok items
  | JObj fields => Ok (map (fun kv => JStr (fst kv)) fields)
  | JStr s => Ok (chars s)
  | _ => Raise (PyError (TypeError "iter" j))
  end.

(** [sum(f(x) for x in l)], from the accumulator [acc]: the generator is
    consumed one element at a time. *)
Fixpoint sum_gen (f : json -> result json) (acc : Z) (l : list json) : result Z :=
  match l with
  | [] => Ok acc
  | x :: t => v <- f x ;; n <- as_number "+" v ;; sum_gen f (acc + n) t
  end.

Definition py_sum (l : list json) : result Z := sum_gen (fun x => Ok x) 0 l.

(** [[f(x) for x in l]] *)
Fixpoint map_m {A B : Type} (f : A -> result B) (l : list A) : result (list B) :=
  match l with
  | [] => Ok []
  | x :: t => y <- f x ;; ys <- map_m f t ;; Ok (y :: ys)
  end.

(** [str(n)] of an integer *)
Definition str_of_Z (n : Z) : string := NilZero.string_of_int (Z.to_int n).

(** ** Binary64 floats

    A Python [float]: a finite [m * 2^e] with its sign (a zero keeps one), an
    infinity or a NaN. Every operation rounds the exact result to the nearest
    float, ties to the even significand, as IEEE 754 has it. *)

Inductive float : Type :=
| Finite (negative : bool) (m e : Z)
| Infinite (negative : bool)
| NaN.

Definition pow2 (k : Z) : Q := (2 # 1) ^ k.

(** The absolute value and the value of a finite float. *)
Definition magnitude (x : float) : Q :=
  match x with
  | Finite _ m e => inject_Z m * pow2 e
  | _ => 0%Q
  end.

Definition value (x : float) : Q :=
  match x with
  | Finite true _ _ => (- magnitude x)%Q
  | _ => magnitude x
  end.

Definition is_finite (x : float) : bool :=
  match x with
  | Finite _ _ _ => true
  | _ => false
  end.

(** The nearest integer, ties to the even one. *)
Definition round_half_even (x : Q) : Z :=
  let f := Qfloor x in
  match (x - inject_Z f ?= 1 # 2)%Q with
  | Lt => f
  | Gt => f + 1
  | Eq => if Z.even f then f else f + 1
  end.

(** The exponent [k] with [2^k <= a < 2^(k+1)], for [a > 0]. *)
Definition ilog2 (a : Q) : Z :=
  let k := Z.log2 (Qnum a) - Z.log2 (Zpos (Qden a)) in
  if Qle_bool (pow2 k) a then k else k - 1.

(** The float nearest to the magnitude [a >= 0], with the given sign: 53
    bits of significand, exponents from -1022 (below, the spacing stays
    [2^-1074]), infinity from [2^1024] on. *)
Definition nearest (negative : bool) (a : Q) : float :=
  if Qeq_bool a 0 then Finite negative 0 0
  else
    let e := Z.max (ilog2 a) (-1022) - 52 in
    let m := round_half_even (a / pow2 e) in
    if Qle_bool (pow2 1024) (inject_Z m * pow2 e) then Infinite negative
    else Finite negative m e.

(** [x * y] *)
Definition float_mul (x y : float) : float :=
  match x, y with
  | Finite sx _ _, Finite sy _ _ => nearest (xorb sx sy) (magnitude x * magnitude y)
  | NaN, _ | _, NaN => NaN
  | Infinite sx, Finite sy m _ => if m =? 0 then NaN else Infinite (xorb sx sy)
  | Finite sx m _, Infinite sy => if m =? 0 then NaN else Infinite (xorb sx sy)
  | Infinite sx, Infinite sy => Infinite (xorb sx sy)
  end.

(** [float(100)] *)
Definition hundred : float := Finite false 100 0.

(** ** Header lookup: [response.headers] is case-insensitive *)

Definition lower_char (c : ascii) : ascii :=
  let n := nat_of_ascii c in
  if (Nat.leb 65 n && Nat.leb n 90)%bool then ascii_of_nat (n + 32) else c.

Fixpoint lower (s : string) : string :=
  match s with
  | EmptyString => EmptyString
  | String c t => String (lower_char c) (lower t)
  end.

Fixpoint headers_get (h : list (string * string)) (k : string) : option string :=
  match h with
  | [] => None
  | (k', v) :: t => if (lower k' =? lower k)%string then Some v else headers_get t k
  end.

(** ** The functions of [app.py] *)

Section Fetchers.

Variable W : world.

(** [str(e)]: a [GitHubAPIError] passes its message to [Exception.__init__]. *)
Definition str_exn (e : exn) : string :=
  match e with
  | GitHubAPIError message _ _ => message
  | _ => exc_text W e
  end.

(** [datetime.fromtimestamp(t).strftime(...)] on a JSON value *)
Definition fromtimestamp (fmt : Z -> option string) (t : json) : result string :=
  n <- as_number "fromtimestamp" t ;;
  match fmt n with
  | Some s => Ok s
  | None => Raise (PyError (TimestampError n))
  end.

(** *** Rate limit inspector *)

Record rate_limit_status : Type := {
  rl_remaining : json;
  rl_reset_time : string;
  rl_limit : json
}.

Definition check_rate_limit : result (option rate_limit_status) :=
  try_except
    (response <- requests_get_result (http_get W "https://api.github.com/rate_limit") ;;
     if status_code response =? 200 then
       data <- response_json response ;;
       resources <- getitem data "resources" ;;
       core <- getitem resources "core" ;;
       remaining <- getitem core "remaining" ;;
       reset <- getitem core "reset" ;;
       reset_time <- fromtimestamp (strftime_hms W) reset ;;
       limit <- getitem core "limit" ;;
       Ok (Some {| rl_remaining := remaining;
                   rl_reset_time := reset_time;
                   rl_limit := limit |})
     else Ok None)
    (fun _ => Ok None).

(** *** Error normalizer *)

(** The two locals of [handle_github_error]. *)
Definition rate_limit_remaining (r : response) : string :=
  match headers_get (headers r) "X-RateLimit-Remaining" with
  | Some v => v
  | None => "Unknown"
  end.

Definition rate_limit_reset (r : response) : result string :=
  match headers_get (headers r) "X-RateLimit-Reset" with
  | Some s =>
      if (s =? "")%string then Ok "Unknown"
      else match py_int W s with
           | None => Raise (PyError (ValueError "int" s))
           | Some t =>
               match strftime_hms W t with
               | Some hms => Ok hms
               | None => Raise (PyError (TimestampError t))
               end
           end
  | None => Ok "Unknown"
  end.

Definition handle_github_error (r : response) : result unit :=
  let remaining_calls := rate_limit_remaining r in
  reset_time <- rate_limit_reset r ;;
  if status_code r =? 404 then
    Raise (GitHubAPIError "Repository not found. Please check the URL."
                          (Some 404) (Some remaining_calls))
  else if status_code r =? 403 then
    Raise (GitHubAPIError
             ("Rate limit exceeded. Resets at " ++ reset_time
              ++ ". Remaining calls: " ++ remaining_calls)
             (Some 403) (Some remaining_calls))
  else if status_code r =? 401 then
    Raise (GitHubAPIError "Unauthorized access. Please check your credentials."
                          (Some 401) (Some remaining_calls))
  else if status_code r =? 429 then
    Raise (GitHubAPIError ("Too many requests. Please wait until " ++ reset_time ++ ".")
                          (Some 429) (Some remaining_calls))
  else
    Raise (GitHubAPIError
             ("GitHub API error: " ++ str_of_Z (status_code r) ++ " - " ++ text r)
             (Some (status_code r)) (Some remaining_calls)).

(** *** Repository summary *)

Definition format_date (date_str : json) : result string :=
  match date_str with
  | JStr s =>
      match strptime_ymd W s with
      | Some d => Ok d
      | None => Raise (PyError (ValueError "strptime" s))
      end
  | _ => Raise (PyError (TypeError "strptime" date_str))
  end.

(** The dictionary [fetch_repo_data] returns, one field per key. *)
Record repo_info : Type := {
  ri_name : json;
  ri_description : json;
  ri_stargazers_count : json;
  ri_forks_count : json;
  ri_watchers_count : json;
  ri_language : json;
  ri_created_at : string;
  ri_updated_at : string
}.

Definition repo_url (owner repo : string) : string :=
  "https://api.github.com/repos/" ++ owner ++ "/" ++ repo.

Definition fetch_repo_data (owner repo : string) : result repo_info :=
  try_except
    (response <- requests_get_result (http_get W (repo_url owner repo)) ;;
     (if negb (status_code response =? 200)
      then handle_github_error response else Ok tt) ;;;
     repo_data <- response_json response ;;
     name <- getitem repo_data "name" ;;
     description <- dict_get repo_data "description" (JStr "No description available") ;;
     stargazers_count <- getitem repo_data "stargazers_count" ;;
     forks_count <- getitem repo_data "forks_count" ;;
     watchers_count <- getitem repo_data "watchers_count" ;;
     language <- dict_get repo_data "language" (JStr "Not specified") ;;
     created <- getitem repo_data "created_at" ;;
     created_at <- format_date created ;;
     updated <- getitem repo_data "updated_at" ;;
     updated_at <- format_date updated ;;
     Ok {| ri_name := name;
           ri_description := description;
           ri_stargazers_count := stargazers_count;
           ri_forks_count := forks_count;
           ri_watchers_count := watchers_count;
           ri_language := language;
           ri_created_at := created_at;
           ri_updated_at := updated_at |})
    (fun e =>
       match e with
       | Timeout =>
           Raise (GitHubAPIError "Request timed out. Please try again." None None)
       | ConnectionError =>
           Raise (GitHubAPIError
                    "Connection error. Please check your internet connection." None None)
       | GitHubAPIError _ _ _ => Raise e
       | _ => Raise (GitHubAPIError ("Unexpected error: " ++ str_exn e) None None)
       end).

(** *** Language composition *)

(** [a / b] on integers: the float nearest to the exact quotient, the sign
    taken from the operands, or [OverflowError] when that is an infinity. *)
Definition truediv (a b : Z) : result float :=
  if b =? 0 then Raise (PyError ZeroDivisionError)
  else
    match nearest (xorb (a <? 0) (b <? 0)) (Qabs (inject_Z a / inject_Z b)) with
    | Infinite _ => Raise (PyError OverflowError)
    | q => Ok q
    end.

Definition languages_url (owner repo : string) : string :=
  repo_url owner repo ++ "/languages".

Definition fetch_language_stats (owner repo : string)
  : result (option (list (string * float))) :=
  try_except
    (response <- requests_get_result (http_get W (languages_url owner repo)) ;;
     (if negb (status_code response =? 200)
      then handle_github_error response else Ok tt) ;;;
     languages <- response_json response ;;
     if negb (truthy languages) then Ok None
     else
       values <- dict_values languages ;;
       total <- py_sum values ;;
       items <- dict_items languages ;;
       stats <- map_m (fun item =>
                         count <- as_number "/" (snd item) ;;
                         q <- truediv count total ;;
                         Ok (fst item, float_mul q hundred))
                      items ;;
       Ok (Some stats))
    (fun e =>
       match e with
       | Timeout | ConnectionError | GitHubAPIError _ _ _ => Raise e
       | _ => Raise (GitHubAPIError
                       ("Error fetching language statistics: " ++ str_exn e) None None)
       end).

(** *** Commit activity *)

(** The two dictionaries [fetch_commit_activity] returns; [None] is the
    third outcome. *)
Inductive commit_activity : Type :=
| Computing (message : string)
| Ready (total_commits : Z) (weeks : list string) (commits : list json)
        (daily_commits : list Z).

(** [l[i] += n] *)
Fixpoint add_at (l : list Z) (i : nat) (n : Z) : list Z :=
  match l, i with
  | [], _ => []
  | x :: t, O => (x + n) :: t
  | x :: t, S i' => x :: add_at t i' n
  end.

(** [for day in range(7): daily_commits[day] += week['days'][day]], over the
    days that are left *)
Fixpoint add_days (week : json) (days : list nat) (daily_commits : list Z)
  : result (list Z) :=
  match days with
  | [] => Ok daily_commits
  | day :: rest =>
      ds <- getitem week "days" ;;
      d <- getitem_index ds day ;;
      n <- as_number "+=" d ;;
      add_days week rest (add_at daily_commits day n)
  end.

Fixpoint add_weeks (data : list json) (daily_commits : list Z) : result (list Z) :=
  match data with
  | [] => Ok daily_commits
  | week :: rest =>
      daily <- add_days week (seq 0 7) daily_commits ;;
      add_weeks rest daily
  end.

Definition commit_activity_url (owner repo : string) : string :=
  repo_url owner repo ++ "/stats/commit_activity".

Definition fetch_commit_activity (owner repo : string)
  : result (option commit_activity) :=
  try_except
    (response <- requests_get_result (http_get W (commit_activity_url owner repo)) ;;
     if status_code response =? 202 then
       Ok (Some (Computing
                   "GitHub is computing statistics. Please wait a moment and try again."))
     else
       (if negb (status_code response =? 200)
        then handle_github_error response else Ok tt) ;;;
       data <- response_json response ;;
       if negb (truthy data) then Ok None
       else
         rows <- py_iter data ;;
         total_commits <- sum_gen (fun week => getitem week "total") 0 rows ;;
         weeks <- map_m (fun week =>
                           t <- getitem week "week" ;;
                           fromtimestamp (strftime_ymd W) t)
                        rows ;;
         commits <- map_m (fun week => getitem week "total") rows ;;
         daily_commits <- add_weeks rows (repeat 0 7) ;;
         Ok (Some (Ready total_commits weeks commits daily_commits)))
    (fun e =>
       match e with
       | Timeout =>
           Raise (GitHubAPIError
                    "Request timed out while fetching commit activity." None None)
       | ConnectionError =>
           Raise (GitHubAPIError
                    "Connection error while fetching commit activity." None None)
       | _ => Raise (GitHubAPIError
                       ("Error fetching commit activity: " ++ str_exn e) None None)
       end).

End Fetchers.

(** ** Identifier extractor *)

(** The longest prefix without ["/"], and what follows it: a greedy [[^/]+]. *)
Fixpoint span_segment (s : string) : string * string :=
  match s with
  | EmptyString => (EmptyString, EmptyString)
  | String c t =>
      if (c =? "/")%char then (EmptyString, s)
      else let (seg, rest) := span_segment t in (String c seg, rest)
  end.

Fixpoint strip_prefix (p s : string) : option string :=
  match p, s with
  | EmptyString, _ => Some s
  | String a p', String b s' => if (a =? b)%char then strip_prefix p' s' else None
  | String _ _, EmptyString => None
  end.

(** A match of [github\.com/([^/]+)/([^/]+)] that starts at the head of [s]:
    the two groups. A group cannot hold a slash, so the greedy first group is
    the whole segment and must be followed by a slash; nothing follows the
    second group, so it is the whole next segment. *)
Definition match_here (s : string) : option (string * string) :=
  match strip_prefix "github.com/" s with
  | None => None
  | Some r =>
      let (owner, r1) := span_segment r in
      match owner, r1 with
      | String _ _, String c r2 =>
          if (c =? "/")%char then
            let (repo, _) := span_segment r2 in
            match repo with
            | EmptyString => None
            | String _ _ => Some (owner, repo)
            end
          else None
      | _, _ => None
      end
  end.

(** [re.search]: the leftmost position with a match. *)
Fixpoint re_search (s : string) : option (string * string) :=
  match match_here s with
  | Some m => Some m
  | None =>
      match s with
      | EmptyString => None
      | String _ t => re_search t
      end
  end.

(** [s.replace(old, new)] for a non-empty [old], left to right without
    overlaps; [skip] counts the characters of the occurrence being replaced
    that are still to pass. *)
Fixpoint replace_from (old new : string) (skip : nat) (s : string) : string :=
  match s with
  | EmptyString => EmptyString
  | String c t =>
      match skip with
      | S k => replace_from old new k t
      | O =>
          if prefix old s
          then new ++ replace_from old new (String.length old - 1) t
          else String c (replace_from old new 0 t)
      end
  end.

Definition str_replace (old new s : string) : string := replace_from old new 0 s.

Definition extract_repo_info (url : string) : option string * option string :=
  match re_search url with
  | Some (owner, repo) => (Some owner, Some (str_replace ".git" "" repo))
  | None => (None, None)
  end.

(** ** A concrete world: a machine on UTC

    Used to run the functions on concrete inputs: CPython 3.11 on Linux with
    the clock on UTC, for ASCII text. [int] and [strptime] follow the
    grammar of the interpreter, [hms] and [ymd] the conversions of
    [datetime.fromtimestamp] and [strftime]. *)

Module Utc.
Definition pad2 (n : Z) : string :=
  if n <? 10 then "0" ++ str_of_Z n else str_of_Z n.

(** [datetime.fromtimestamp] also converts the instant one day earlier, to
    settle the fold of local time: the first day of year 1 is out of reach. *)
Definition in_range (t : Z) : bool :=
  (-62135510400 <=? t) && (t <=? 253402300799).

Definition hms (t : Z) : option string :=
  if in_range t then
    let s := t mod 86400 in
    Some (pad2 (s / 3600) ++ ":" ++ pad2 (s mod 3600 / 60) ++ ":" ++ pad2 (s mod 60))
  else None.

(** The civil date of a day number counted from 1970-01-01. *)
Definition civil (days : Z) : Z * Z * Z :=
  let z := days + 719468 in
  let era := z / 146097 in
  let doe := z - era * 146097 in
  let yoe := (doe - doe / 1460 + doe / 36524 - doe / 146096) / 365 in
  let doy := doe - (365 * yoe + yoe / 4 - yoe / 100) in
  let mp := (5 * doy + 2) / 153 in
  let d := doy - (153 * mp + 2) / 5 + 1 in
  let m := if mp <? 10 then mp + 3 else mp - 9 in
  let y := yoe + era * 400 + (if m <=? 2 then 1 else 0) in
  (y, m, d).

(** [%Y] of the C library does not pad the year. *)
Definition date_text (y m d : Z) : string :=
  str_of_Z y ++ "-" ++ pad2 m ++ "-" ++ pad2 d.

Definition ymd (t : Z) : option string :=
  if in_range t then
    let '(y, m, d) := civil (t / 86400) in Some (date_text y m d)
  else None.

Definition is_digit (c : ascii) : bool :=
  let n := nat_of_ascii c in (Nat.leb 48 n && Nat.leb n 57)%bool.

Definition digit_value (c : ascii) : Z := Z.of_nat (nat_of_ascii c) - 48.

(** The white space [int] skips: tab, line feed, vertical tab, form feed,
    carriage return and space. *)
Definition is_blank (c : ascii) : bool :=
  let n := nat_of_ascii c in ((Nat.leb 9 n && Nat.leb n 13) || Nat.eqb n 32)%bool.

Fixpoint skip_blanks (s : string) : string :=
  match s with
  | String c t => if is_blank c then skip_blanks t else s
  | EmptyString => s
  end.

(** Digits with single underscores between them, then white space to the
    end; [count] digits have been read, the last character was one when
    [after_digit]. No more than 4300 digits are converted. *)
Fixpoint digits (acc : Z) (count : nat) (after_digit : bool) (s : string) : option Z :=
  match s with
  | EmptyString => if after_digit && Nat.leb count 4300 then Some acc else None
  | String c t =>
      if is_digit c then digits (10 * acc + digit_value c) (S count) true t
      else if (c =? "_")%char then
        if after_digit then digits acc count false t else None
      else if is_blank c then
        match skip_blanks t with
        | EmptyString => if after_digit && Nat.leb count 4300 then Some acc else None
        | String _ _ => None
        end
      else None
  end.

Definition int (s : string) : option Z :=
  match skip_blanks s with
  | String "+" t => digits 0 0 false t
  | String "-" t => option_map Z.opp (digits 0 0 false t)
  | t => digits 0 0 false t
  end.

(** A field of [strptime]: one or two digits before a character [stop]
    accepts. *)
Definition field (stop : ascii -> bool) (s : string) : option (Z * string) :=
  match s with
  | String a (String b rest) =>
      if is_digit a then
        if stop b then Some (digit_value a, rest)
        else
          match rest with
          | String c rest' =>
              if is_digit b && stop c
              then Some (10 * digit_value a + digit_value b, rest')
              else None
          | EmptyString => None
          end
      else None
  | _ => None
  end.

(** The day of the month may also be written with a space before its one
    digit. *)
Definition day_field (stop : ascii -> bool) (s : string) : option (Z * string) :=
  match s with
  | String " " (String b (String c rest)) =>
      if is_digit b && stop c then Some (digit_value b, rest) else None
  | _ => field stop s
  end.

Definition year_field (s : string) : option (Z * string) :=
  match s with
  | String a (String b (String c (String d (String "-" rest)))) =>
      if is_digit a && is_digit b && is_digit c && is_digit d
      then Some (1000 * digit_value a + 100 * digit_value b
                 + 10 * digit_value c + digit_value d, rest)
      else None
  | _ => None
  end.

Definition leap (y : Z) : bool :=
  (y mod 4 =? 0) && (negb (y mod 100 =? 0) || (y mod 400 =? 0)).

Definition days_in_month (y m : Z) : Z :=
  if m =? 2 then (if leap y then 29 else 28)
  else if (m =? 4) || (m =? 6) || (m =? 9) || (m =? 11) then 30
  else 31.

Definition between (lo hi v : Z) : bool := (lo <=? v) && (v <=? hi).

(** The format [%Y-%m-%dT%H:%M:%SZ]: letters match in either case, the whole
    text is consumed, and the fields name a moment of the calendar. *)
Definition strptime (s : string) : option string :=
  let dash := fun c => (c =? "-")%char in
  let colon := fun c => (c =? ":")%char in
  let tee := fun c => ((c =? "T") || (c =? "t"))%char in
  let zed := fun c => ((c =? "Z") || (c =? "z"))%char in
  match year_field s with
  | Some (y, s1) =>
  match field dash s1 with
  | Some (m, s2) =>
  match day_field tee s2 with
  | Some (d, s3) =>
  match field colon s3 with
  | Some (h, s4) =>
  match field colon s4 with
  | Some (mi, s5) =>
  match field zed s5 with
  | Some (sec, EmptyString) =>
      if between 1 9999 y && between 1 12 m && between 1 (days_in_month y m) d
         && between 0 23 h && between 0 59 mi && between 0 59 sec
      then Some (date_text y m d) else None
  | _ => None
  end
  | None => None
  end
  | None => None
  end
  | None => None
  end
  | None => None
  end
  | None => None
  end.

(** The year [localtime] reports, held in a C [int] counted from 1900. *)
Definition reported_year (t : Z) : Z :=
  let y := fst (fst (civil (t / 86400))) in
  (y + 2147483648) mod 4294967296 - 2147483648.

Definition year_representable (t : Z) : bool :=
  between (-2147483648) 2147483647 (fst (fst (civil (t / 86400))) - 1900).

(** The name of the type of a value, and [repr] of a string without quotes,
    backslashes or control characters. *)
Definition type_name (j : json) : string :=
  match j with
  | JNull => "NoneType"
  | JBool _ => "bool"
  | JInt _ => "int"
  | JStr _ => "str"
  | JArr _ => "list"
  | JObj _ => "dict"
  end.

Definition repr (s : string) : string := "'" ++ s ++ "'".

(** [str(e)], as CPython 3.11 words it. *)
Definition text (e : exn) : string :=
  match e with
  | GitHubAPIError message _ _ => message
  | Timeout =>
      "HTTPSConnectionPool(host='api.github.com', port=443): Read timed out. (read timeout=10)"
  | ConnectionError => "Connection aborted."
  | PyError (TypeError operation operand) =>
      if (operation =? "[]")%string then
        match operand with
        | JStr _ => "string indices must be integers, not 'str'"
        | JArr _ => "list indices must be integers or slices, not str"
        | _ => "'" ++ type_name operand ++ "' object is not subscriptable"
        end
      else if (operation =? "iter")%string then
        "'" ++ type_name operand ++ "' object is not iterable"
      else if (operation =? "fromtimestamp")%string then
        "'" ++ type_name operand ++ "' object cannot be interpreted as an integer"
      else if (operation =? "strptime")%string then
        "strptime() argument 1 must be str, not " ++ type_name operand
      else if (operation =? "/")%string then
        "unsupported operand type(s) for /: '" ++ type_name operand ++ "' and 'int'"
      else
        "unsupported operand type(s) for " ++ operation ++ ": 'int' and '"
        ++ type_name operand ++ "'"
  | PyError (AttributeError attribute operand) =>
      "'" ++ type_name operand ++ "' object has no attribute '" ++ attribute ++ "'"
  | PyError (KeyError (JStr k)) => repr k
  | PyError (KeyError (JInt i)) => str_of_Z i
  | PyError (KeyError _) => "key"
  | PyError (IndexError (JStr _)) => "string index out of range"
  | PyError (IndexError _) => "list index out of range"
  | PyError (ValueError operation literal) =>
      if (operation =? "int")%string then
        "invalid literal for int() with base 10: " ++ repr literal
      else
        "time data " ++ repr literal ++ " does not match format '%Y-%m-%dT%H:%M:%SZ'"
  | PyError ZeroDivisionError => "division by zero"
  | PyError OverflowError => "integer division result too large for a float"
  | PyError (TimestampError t) =>
      if negb (between (- 2 ^ 63) (2 ^ 63 - 1) t) then
        "timestamp out of range for platform time_t"
      else if negb (year_representable t) then
        "[Errno 75] Value too large for defined data type"
      else if between 1 9999 (reported_year t) then "year 0 is out of range"
      else "year " ++ str_of_Z (reported_year t) ++ " is out of range"
  | PyError (JSONDecodeError _) => "Expecting value: line 1 column 1 (char 0)"
  | PyError (RequestException reason) => reason
  end.

Definition world_of (net : string -> outcome) : world :=
  {| http_get := net;
     py_int := int;
     strftime_hms := hms;
     strftime_ymd := ymd;
     strptime_ymd := strptime;
     exc_text := text |}.

End Utc.

Definition ok_response (body : json) : response :=
  {| status_code := 200; headers := []; text := ""; json_body := Some body |}.

(** ** Uploaded configuration files

    Characters stand for code points below 256. *)

(** The line boundaries of [str.splitlines]. *)
Definition is_linebreak (c : ascii) : bool :=
  let n := nat_of_ascii c in
  (Nat.leb 10 n && Nat.leb n 13)%bool
  || (Nat.leb 28 n && Nat.leb n 30)%bool
  || Nat.eqb n 133.

(** [c.isspace()] *)
Definition is_space (c : ascii) : bool :=
  let n := nat_of_ascii c in
  (Nat.leb 9 n && Nat.leb n 13)%bool
  || (Nat.leb 28 n && Nat.leb n 32)%bool
  || Nat.eqb n 133
  || Nat.eqb n 160.

(** [s.splitlines()], [line] being the line read so far: a carriage return
    followed by a line feed is one boundary, and no empty line follows the
    last boundary. *)
Fixpoint splitlines_from (line s : string) : list string :=
  match s with
  | EmptyString =>
      match line with
      | EmptyString => []
      | String _ _ => [line]
      end
  | String c t =>
      if (c =? "013")%char then
        match t with
        | String c' t' =>
            if (c' =? "010")%char then line :: splitlines_from "" t'
            else line :: splitlines_from "" t
        | EmptyString => line :: splitlines_from "" t
        end
      else if is_linebreak c then line :: splitlines_from "" t
      else splitlines_from (line ++ String c "") t
  end.

Definition splitlines (s : string) : list string := splitlines_from "" s.

Fixpoint lstrip (s : string) : string :=
  match s with
  | EmptyString => EmptyString
  | String c t => if is_space c then lstrip t else s
  end.

Fixpoint rstrip (s : string) : string :=
  match s with
  | EmptyString => EmptyString
  | String c t =>
      match rstrip t with
      | EmptyString => if is_space c then EmptyString else String c EmptyString
      | String _ _ as t' => String c t'
      end
  end.

(** [s.strip()] *)
Definition strip (s : string) : string := rstrip (lstrip s).

(** [[line.strip() for line in content.splitlines() if line.strip()]] *)
Definition stripped_lines (content : string) : list string :=
  map strip (filter (fun line => negb (strip line =? "")%string) (splitlines content)).

(** [s.endswith(suffix)] *)
Definition endswith (s suffix : string) : bool :=
  (Nat.leb (String.length suffix) (String.length s)
   && (substring (String.length s - String.length suffix) (String.length suffix) s
       =? suffix)%string)%bool.

(** What the page shows. *)
Inductive ui_event : Type :=
| St_error (body : string)
| St_warning (body : string)
| St_info (body : string).

(** An uploaded file: its name and what [read().decode()] gives, the text or
    the text of the exception. *)
Record uploaded_file : Type := {
  uf_name : string;
  uf_decoded : string + string
}.

(** [json.loads] and [yaml.safe_load]: the value or the text of the
    exception. *)
Record loaders : Type := {
  json_loads : string -> json + string;
  yaml_safe_load : string -> json + string
}.

(** The value returned ([JNull] for [None]) and what was shown. *)
Definition process_uploaded_file (L : loaders) (file : option uploaded_file)
  : json * list ui_event :=
  match file with
  | None => (JNull, [])
  | Some f =>
      let failed (msg : string) :=
        (JNull, [St_error ("Error processing file: " ++ msg)]) in
      match uf_decoded f with
      | inr msg => failed msg
      | inl content =>
          if endswith (uf_name f) ".json" then
            match json_loads L content with
            | inl v => (v, [])
            | inr msg => failed msg
            end
          else if endswith (uf_name f) ".yml" || endswith (uf_name f) ".yaml" then
            match yaml_safe_load L content with
            | inl v => (v, [])
            | inr msg => failed msg
            end
          else
            (JObj [("repositories", JArr (map JStr (stripped_lines content)))], [])
      end
  end.

Definition no_linebreak (s : string) : bool :=
  forallb (fun c => negb (is_linebreak c)) (list_ascii_of_string s).

(** A line [strip] leaves as it is, and that is not blank. *)
Definition clean_line (s : string) : bool :=
  negb (s =? "")%string && (strip s =? s)%string && no_linebreak s.

(** The lines, each ended by a line feed. *)
Definition unlines (lines : list string) : string :=
  fold_right (fun line rest => line ++ String "010" rest) "" lines.

Definition no_loaders : loaders :=
  {| json_loads := fun _ => inr "no JSON"; yaml_safe_load := fun _ => inr "no YAML" |}.

(** The lines, each ended by a carriage return and a line feed. *)
Definition unlines_crlf (lines : list string) : string :=
  fold_right (fun line rest => line ++ String "013" (String "010" rest)) "" lines.

Definition is_text_name (name : string) : bool :=
  negb (endswith name ".json" || endswith name ".yml" || endswith name ".yaml").


(** ** Error display *)

Definition nl : string := String "010" "".

(** [display_error_message]: what it shows, in order. The pictographs stand
    as their UTF-8 bytes. *)
Definition display_error_message (W : world) (error : exn) : list ui_event :=
  match error with
  | GitHubAPIError message status _ =>
      let status_is (n : Z) :=
        match status with
        | Some s => s =? n
        | None => false
        end in
      if status_is 403 || status_is 429 then
        [St_error ("🚫 " ++ message);
         St_warning ("To avoid rate limiting, consider:" ++ nl
                     ++ "1. Waiting until the rate limit resets" ++ nl
                     ++ "2. Using a GitHub personal access token" ++ nl
                     ++ "3. Checking the API status in the sidebar")]
      else if status_is 404 then
        [St_error ("🔍 " ++ message);
         St_info ("Please ensure:" ++ nl
                  ++ "1. The repository URL is correct" ++ nl
                  ++ "2. The repository exists and is public" ++ nl
                  ++ "3. You have typed the owner and repository name correctly")]
      else if status_is 401 then
        [St_error ("🔒 " ++ message);
         St_info ("If you're trying to access a private repository:" ++ nl
                  ++ "1. Make sure you have the correct permissions" ++ nl
                  ++ "2. Use a GitHub personal access token with appropriate scopes")]
      else [St_error ("❌ " ++ message)]
  | _ => [St_error ("❌ An unexpected error occurred: " ++ str_exn W error)]
  end.

(** The statuses [display_error_message] has guidance for. *)
Definition guided_status (s : Z) : bool :=
  (s =? 401) || (s =? 403) || (s =? 404) || (s =? 429).

(** ** Language tables *)

Definition language_files : list (string * string) :=
  [("Python", ".py, .pyw, .pyx");
   ("JavaScript", ".js, .jsx, .mjs");
   ("TypeScript", ".ts, .tsx");
   ("Java", ".java, .class, .jar");
   ("C++", ".cpp, .hpp, .cc");
   ("HTML", ".html, .htm");
   ("CSS", ".css, .scss, .sass");
   ("Ruby", ".rb, .erb");
   ("Go", ".go");
   ("Rust", ".rs")].

Definition get_language_file_types (language : string) : string :=
  match assoc language language_files with
  | Some v => v
  | None => "Various files"
  end.

Definition descriptions : list (string * string) :=
  [("Python", "General-purpose language known for readability and extensive libraries");
   ("JavaScript", "Web programming language for client-side and server-side development");
   ("TypeScript", "Typed superset of JavaScript for large-scale applications");
   ("Java", "Object-oriented language for enterprise and Android development");
   ("C++", "Systems programming language for performance-critical applications");
   ("HTML", "Markup language for structuring web content");
   ("CSS", "Style sheet language for web page presentation");
   ("Ruby", "Dynamic language focused on simplicity and productivity");
   ("Go", "Concurrent programming language for scalable network services");
   ("Rust", "Systems language focusing on safety and performance")].

Definition get_language_description (language : string) : string :=
  match assoc language descriptions with
  | Some v => v
  | None => "Programming language"
  end.

(** ** Vocabulary of the properties *)

Definition computing_message : string :=
  "GitHub is computing statistics. Please wait a moment and try again.".

Definition rate_limit_url : string := "https://api.github.com/rate_limit".

Definition rate_limit_payload : json :=
  JObj [("resources",
         JObj [("core", JObj [("limit", JInt 60); ("remaining", JInt 59);
                              ("reset", JInt 1700000000); ("used", JInt 1)])]);
        ("rate", JObj [])].

Definition null_summary_payload : json :=
  JObj [("name", JStr "Hello-World"); ("description", JNull);
        ("stargazers_count", JInt 80); ("forks_count", JInt 9);
        ("watchers_count", JInt 80); ("language", JNull);
        ("created_at", JStr "2011-01-26T19:01:12Z");
        ("updated_at", JStr "2011-01-26T19:14:43Z")].

Fixpoint contains (sub s : string) : bool :=
  prefix sub s
  || match s with
     | EmptyString => false
     | String _ t => contains sub t
     end.

(** A message that tells the user to try again. *)
Definition suggests_retry (message : string) : bool :=
  contains "try again" (lower message) || contains "retry" (lower message).

(** The outcome the specification gives a timeout: a [GitHubAPIError] whose
    message suggests a retry. *)
Definition timeout_api_error {A : Type} (r : result A) : Prop :=
  exists message status remaining,
    r = Raise (GitHubAPIError message status remaining)
    /\ suggests_retry message = true.

(** A rate-limited and a not-found response, with the rate-limit headers the
    API sends. *)
Definition rate_limited_response : response :=
  {| status_code := 403;
     headers := [("Content-Type", "application/json");
                 ("X-RateLimit-Remaining", "0");
                 ("X-RateLimit-Reset", "1700000000")];
     text := "{}";
     json_body := Some (JObj []) |}.

Definition not_found_response : response :=
  {| status_code := 404;
     headers := [("X-RateLimit-Remaining", "59");
                 ("X-RateLimit-Reset", "1700000000")];
     text := "{}";
     json_body := Some (JObj []) |}.

(** *** Weekly activity payloads *)

Fixpoint sum_Z (l : list Z) : Z :=
  match l with
  | [] => 0
  | x :: t => x + sum_Z t
  end.

(** The integers of a list of JSON integers. *)
Fixpoint ints_of (l : list json) : option (list Z) :=
  match l with
  | [] => Some []
  | JInt n :: t => option_map (cons n) (ints_of t)
  | _ :: _ => None
  end.

(** The [total] and the [days] of a week record. *)
Definition week_total (week : json) : Z :=
  match week with
  | JObj fields =>
      match assoc "total" fields with
      | Some (JInt n) => n
      | _ => 0
      end
  | _ => 0
  end.

Definition week_days (week : json) : list Z :=
  match week with
  | JObj fields =>
      match assoc "days" fields with
      | Some (JArr ds) =>
          match ints_of ds with
          | Some l => l
          | None => []
          end
      | _ => []
      end
  | _ => []
  end.

(** A well-formed week record: an object with an integer [week] the clock
    converts, a [days] list of seven integers and their sum as [total]. *)
Definition well_formed_week (W : world) (week : json) : bool :=
  match week with
  | JObj fields =>
      match assoc "week" fields, assoc "total" fields, assoc "days" fields with
      | Some (JInt t), Some (JInt n), Some (JArr ds) =>
          match ints_of ds, strftime_ymd W t with
          | Some l, Some _ => (List.length l =? 7)%nat && (n =? sum_Z l)
          | _, _ => false
          end
      | _, _, _ => false
      end
  | _ => false
  end.

(** Slot by slot sum of two lists. *)
Fixpoint vec_add (a b : list Z) : list Z :=
  match a, b with
  | x :: a', y :: b' => (x + y) :: vec_add a' b'
  | _, _ => []
  end.

(** The per-weekday sums over all weeks, on top of [daily]. *)
Definition day_totals_from (daily : list Z) (rows : list json) : list Z :=
  fold_left (fun acc week => vec_add acc (week_days week)) rows daily.

Definition day_totals (rows : list json) : list Z :=
  day_totals_from (repeat 0 7) rows.

Definition week_record (t total : Z) (days : list Z) : json :=
  JObj [("days", JArr (map JInt days)); ("total", JInt total); ("week", JInt t)].

(** The two weeks of the specification's scenario, starting at [t1], [t2]. *)
Definition two_weeks (t1 t2 : Z) : list json :=
  [week_record t1 5 [1; 0; 0; 0; 0; 0; 4]; week_record t2 3 [0; 1; 1; 0; 0; 1; 0]].


(** *** Language payloads *)

(** The payload of the languages endpoint for the given byte counts. *)
Definition byte_counts (bytes : list (string * Z)) : json :=
  JObj (map (fun kv => (fst kv, JInt (snd kv))) bytes).

Fixpoint sum_Q (l : list Q) : Q :=
  match l with
  | [] => 0%Q
  | x :: t => (x + sum_Q t)%Q
  end.


(** *** Repository URLs *)

Fixpoint no_slash (s : string) : bool :=
  match s with
  | EmptyString => true
  | String c t => negb (c =? "/")%char && no_slash t
  end.


(** *** Error shapes *)

(** A computation that raises nothing but interpreter and library errors. *)
Definition raises_py {A : Type} (c : result A) : Prop :=
  forall e, c = Raise e -> exists p, e = PyError p.


(** *** Responses used as examples *)

Definition teapot_response : response :=
  {| status_code := 418; headers := [("x-ratelimit-remaining", "7")];
     text := "short and stout"; json_body := None |}.

(** A 404 response whose reset header is no number. *)
Definition garbled_reset_response : response :=
  {| status_code := 404;
     headers := [("X-RateLimit-Remaining", "59"); ("X-RateLimit-Reset", "soon")];
     text := "{}";
     json_body := Some (JObj []) |}.


(** A week record without its [days]. *)
Definition week_without_days (t total : Z) : json :=
  JObj [("total", JInt total); ("week", JInt t)].


(** * Properties *)

(** ** Commit activity: the pending state *)

(** C6: whatever the body and the headers of a 202 response of the
    commit-activity endpoint, [fetch_commit_activity] returns the computing
    state with its message and raises nothing; the one request is the whole
    call. *)
Theorem fetch_commit_activity_202 (W : world) (owner repo : string) (r : response) :
  http_get W (commit_activity_url owner repo) = Responded r ->
  status_code r = 202 ->
  fetch_commit_activity W owner repo = Ok (Some (Computing computing_message)).
Proof.
  intros Hget Hstatus.
  unfold fetch_commit_activity.
  rewrite Hget. simpl. rewrite Hstatus. reflexivity.
Qed.

(** A 202 response with a body, on the UTC machine. *)
Lemma fetch_commit_activity_202_witness :
  let r := {| status_code := 202; headers := []; text := "{}"; json_body := Some (JObj []) |} in
  fetch_commit_activity (Utc.world_of (fun _ => Responded r)) "octocat" "Hello-World"
  = Ok (Some (Computing computing_message)).
Proof.
  intro r.
  apply (fetch_commit_activity_202 (Utc.world_of (fun _ => Responded r))
           "octocat" "Hello-World" r); reflexivity.
Defined.

(** ** Language composition: the empty payload *)

(** C8: a 200 response of the languages endpoint whose mapping is empty makes
    [fetch_language_stats] return [None]: no exception, and not an empty
    mapping. *)
Theorem fetch_language_stats_empty (W : world) (owner repo : string) (r : response) :
  http_get W (languages_url owner repo) = Responded r ->
  status_code r = 200 ->
  json_body r = Some (JObj []) ->
  fetch_language_stats W owner repo = Ok None
  /\ fetch_language_stats W owner repo <> Ok (Some [])
  /\ forall e, fetch_language_stats W owner repo <> Raise e.
Proof.
  intros Hget Hstatus Hbody.
  assert (E : fetch_language_stats W owner repo = Ok None).
  { unfold fetch_language_stats, response_json.
    rewrite Hget. simpl. rewrite Hstatus, Hbody. reflexivity. }
  rewrite E. repeat split; intros; discriminate.
Qed.

(** The empty mapping, on the UTC machine. *)
Lemma fetch_language_stats_empty_witness :
  fetch_language_stats (Utc.world_of (fun _ => Responded (ok_response (JObj []))))
    "octocat" "Hello-World" = Ok None.
Proof.
  apply (fetch_language_stats_empty
           (Utc.world_of (fun _ => Responded (ok_response (JObj []))))
           "octocat" "Hello-World" (ok_response (JObj []))); reflexivity.
Defined.

(** ** Rate limit inspector *)

(** C9: [check_rate_limit] never raises. It returns [None] when the request
    fails, when the status is not 200 and when the body is not JSON; when it
    returns a snapshot, the response had status 200 and a JSON body holding
    [resources.core] with its [remaining], [reset] and [limit] entries, [reset]
    being an instant the clock converts. *)
Theorem check_rate_limit_best_effort (W : world) :
  (exists v, check_rate_limit W = Ok v)
  /\ (forall r, http_get W rate_limit_url = Responded r ->
                status_code r <> 200 -> check_rate_limit W = Ok None)
  /\ (forall r, http_get W rate_limit_url = Responded r ->
                json_body r = None -> check_rate_limit W = Ok None)
  /\ ((forall r, http_get W rate_limit_url <> Responded r) ->
      check_rate_limit W = Ok None)
  /\ (forall s, check_rate_limit W = Ok (Some s) ->
        exists r data resources core reset,
          http_get W rate_limit_url = Responded r
          /\ status_code r = 200
          /\ json_body r = Some data
          /\ getitem data "resources" = Ok resources
          /\ getitem resources "core" = Ok core
          /\ getitem core "remaining" = Ok (rl_remaining s)
          /\ getitem core "reset" = Ok reset
          /\ fromtimestamp (strftime_hms W) reset = Ok (rl_reset_time s)
          /\ getitem core "limit" = Ok (rl_limit s)).
Proof.
  unfold check_rate_limit, rate_limit_url.
  repeat split.
  - unfold try_except.
    match goal with |- context [match ?c with _ => _ end] => destruct c end; eauto.
  - intros r Hget Hstatus. rewrite Hget. simpl.
    apply Z.eqb_neq in Hstatus. rewrite Hstatus. reflexivity.
  - intros r Hget Hbody. rewrite Hget. unfold response_json. simpl.
    rewrite Hbody. destruct (status_code r =? 200); reflexivity.
  - intros Hno.
    destruct (http_get W "https://api.github.com/rate_limit") eqn:E;
      [exfalso; exact (Hno r eq_refl) | reflexivity ..].
  - intros s H.
    destruct (http_get W "https://api.github.com/rate_limit") as [r| | |] eqn:Hget;
      simpl in H; try discriminate H.
    destruct (status_code r =? 200) eqn:Hstatus; [|discriminate H].
    apply Z.eqb_eq in Hstatus.
    unfold response_json in H.
    destruct (json_body r) as [data|] eqn:Hbody; simpl in H; [|discriminate H].
    destruct (getitem data "resources") as [resources|] eqn:H1; simpl in H; [|discriminate H].
    destruct (getitem resources "core") as [core|] eqn:H2; simpl in H; [|discriminate H].
    destruct (getitem core "remaining") as [remaining|] eqn:H3; simpl in H; [|discriminate H].
    destruct (getitem core "reset") as [reset|] eqn:H4; simpl in H; [|discriminate H].
    destruct (fromtimestamp (strftime_hms W) reset) as [t|] eqn:H5; simpl in H;
      [|discriminate H].
    destruct (getitem core "limit") as [limit|] eqn:H6; simpl in H; [|discriminate H].
    injection H as <-. simpl.
    exists r, data, resources, core, reset. repeat split; assumption.
Qed.

(** A rate-limit payload gives its snapshot, a timeout gives [None]. *)
Lemma check_rate_limit_best_effort_witness :
  check_rate_limit (Utc.world_of (fun _ => Responded (ok_response rate_limit_payload)))
  = Ok (Some {| rl_remaining := JInt 59; rl_reset_time := "22:13:20"; rl_limit := JInt 60 |})
  /\ check_rate_limit (Utc.world_of (fun _ => TimedOut)) = Ok None.
Proof.
  split.
  - reflexivity.
  - apply (check_rate_limit_best_effort (Utc.world_of (fun _ => TimedOut))).
    intros r; discriminate.
Defined.

(** ** Repository summary: null fields and defaults *)

(** C10: on a 200 response whose payload holds the required keys,
    [fetch_repo_data] returns the summary in which [description] and
    [language] are the payload's values whenever the keys are there, [null]
    included; the two default strings appear only for a key that is absent. *)
Theorem fetch_repo_data_null_passthrough
    (W : world) (owner repo : string) (r : response) (fields : list (string * json))
    (name stars forks watchers : json) (created updated created_at updated_at : string) :
  http_get W (repo_url owner repo) = Responded r ->
  status_code r = 200 ->
  json_body r = Some (JObj fields) ->
  assoc "name" fields = Some name ->
  assoc "stargazers_count" fields = Some stars ->
  assoc "forks_count" fields = Some forks ->
  assoc "watchers_count" fields = Some watchers ->
  assoc "created_at" fields = Some (JStr created) ->
  strptime_ymd W created = Some created_at ->
  assoc "updated_at" fields = Some (JStr updated) ->
  strptime_ymd W updated = Some updated_at ->
  exists info,
    fetch_repo_data W owner repo = Ok info
    /\ ri_name info = name
    /\ ri_created_at info = created_at
    /\ ri_updated_at info = updated_at
    /\ (forall v, assoc "description" fields = Some v -> ri_description info = v)
    /\ (assoc "description" fields = Some JNull -> ri_description info = JNull)
    /\ (assoc "description" fields = None ->
        ri_description info = JStr "No description available")
    /\ (forall v, assoc "language" fields = Some v -> ri_language info = v)
    /\ (assoc "language" fields = Some JNull -> ri_language info = JNull)
    /\ (assoc "language" fields = None -> ri_language info = JStr "Not specified").
Proof.
  intros Hget Hstatus Hbody Hname Hstars Hforks Hwatch Hc Hcd Hu Hud.
  unfold fetch_repo_data, response_json.
  rewrite Hget. simpl. rewrite Hstatus, Hbody. simpl.
  rewrite Hname, Hstars, Hforks, Hwatch, Hc, Hu. simpl.
  rewrite Hcd, Hud. simpl.
  destruct (assoc "description" fields) as [d|] eqn:Hd;
    destruct (assoc "language" fields) as [l|] eqn:Hl; simpl;
    eexists; (split; [reflexivity|]); simpl;
    repeat split; intros; congruence.
Qed.

(** A payload whose [description] and [language] are [null]. *)
Lemma fetch_repo_data_null_passthrough_witness :
  exists info,
    fetch_repo_data (Utc.world_of (fun _ => Responded (ok_response null_summary_payload)))
      "octocat" "Hello-World" = Ok info
    /\ ri_description info = JNull
    /\ ri_language info = JNull.
Proof.
  destruct (fetch_repo_data_null_passthrough
              (Utc.world_of (fun _ => Responded (ok_response null_summary_payload)))
              "octocat" "Hello-World" (ok_response null_summary_payload)
              [("name", JStr "Hello-World"); ("description", JNull);
               ("stargazers_count", JInt 80); ("forks_count", JInt 9);
               ("watchers_count", JInt 80); ("language", JNull);
               ("created_at", JStr "2011-01-26T19:01:12Z");
               ("updated_at", JStr "2011-01-26T19:14:43Z")]
              (JStr "Hello-World") (JInt 80) (JInt 9) (JInt 80)
              "2011-01-26T19:01:12Z" "2011-01-26T19:14:43Z" "2011-01-26" "2011-01-26"
              eq_refl eq_refl eq_refl eq_refl eq_refl eq_refl eq_refl eq_refl eq_refl
              eq_refl eq_refl)
    as (info & Hfetch & _ & _ & _ & _ & Hd & _ & _ & Hl & _).
  exists info. split; [exact Hfetch|]. split; [apply Hd | apply Hl]; reflexivity.
Defined.

(** The same payload without the two keys. *)
Example fetch_repo_data_defaults :
  let payload :=
    JObj [("name", JStr "Hello-World"); ("stargazers_count", JInt 80);
          ("forks_count", JInt 9); ("watchers_count", JInt 80);
          ("created_at", JStr "2011-01-26T19:01:12Z");
          ("updated_at", JStr "2011-01-26T19:14:43Z")] in
  fetch_repo_data (Utc.world_of (fun _ => Responded (ok_response payload)))
    "octocat" "Hello-World"
  = Ok {| ri_name := JStr "Hello-World";
          ri_description := JStr "No description available";
          ri_stargazers_count := JInt 80;
          ri_forks_count := JInt 9;
          ri_watchers_count := JInt 80;
          ri_language := JStr "Not specified";
          ri_created_at := "2011-01-26";
          ri_updated_at := "2011-01-26" |}.
Proof. reflexivity. Qed.

(** ** Transport timeouts *)

(** C4, as stated, fails: on a timeout [fetch_language_stats] lets the
    transport's own exception through, and the message of
    [fetch_commit_activity] suggests no retry. *)
Lemma timeout_not_uniform :
  let W := Utc.world_of (fun _ => TimedOut) in
  fetch_language_stats W "octocat" "Hello-World" = Raise Timeout
  /\ ~ timeout_api_error (fetch_language_stats W "octocat" "Hello-World")
  /\ ~ timeout_api_error (fetch_commit_activity W "octocat" "Hello-World").
Proof.
  simpl. split; [reflexivity|].
  split; intros (m & sc & rc & H & Hretry).
  - discriminate H.
  - injection H as <- _ _. discriminate Hretry.
Qed.

(** C4, amended: a timeout of the request makes each fetcher raise one
    exception and return no value. [fetch_repo_data] raises a
    [GitHubAPIError] without status whose message suggests a retry,
    [fetch_commit_activity] one whose message does not, and
    [fetch_language_stats] raises the transport's timeout unchanged. *)
Theorem fetch_timeout_outcomes (W : world) (owner repo : string) :
  (http_get W (repo_url owner repo) = TimedOut ->
   fetch_repo_data W owner repo
   = Raise (GitHubAPIError "Request timed out. Please try again." None None)
   /\ timeout_api_error (fetch_repo_data W owner repo))
  /\ (http_get W (languages_url owner repo) = TimedOut ->
      fetch_language_stats W owner repo = Raise Timeout)
  /\ (http_get W (commit_activity_url owner repo) = TimedOut ->
      fetch_commit_activity W owner repo
      = Raise (GitHubAPIError "Request timed out while fetching commit activity."
                              None None)
      /\ suggests_retry "Request timed out while fetching commit activity." = false).
Proof.
  split; [|split]; intros H.
  - assert (E : fetch_repo_data W owner repo
                = Raise (GitHubAPIError "Request timed out. Please try again."
                                        None None)).
    { unfold fetch_repo_data. rewrite H. reflexivity. }
    split; [exact E|]. rewrite E.
    eexists _, _, _. split; reflexivity.
  - unfold fetch_language_stats. rewrite H. reflexivity.
  - split; [|reflexivity].
    unfold fetch_commit_activity. rewrite H. reflexivity.
Qed.

(** The three fetchers when every request times out. *)
Lemma fetch_timeout_outcomes_witness :
  let W := Utc.world_of (fun _ => TimedOut) in
  fetch_repo_data W "octocat" "Hello-World"
  = Raise (GitHubAPIError "Request timed out. Please try again." None None)
  /\ fetch_language_stats W "octocat" "Hello-World" = Raise Timeout
  /\ fetch_commit_activity W "octocat" "Hello-World"
     = Raise (GitHubAPIError "Request timed out while fetching commit activity."
                             None None).
Proof.
  intro W.
  destruct (fetch_timeout_outcomes W "octocat" "Hello-World") as (H1 & H2 & H3).
  split; [apply H1; reflexivity|].
  split; [apply H2; reflexivity | apply H3; reflexivity].
Defined.

(** ** Error normalizer: status 403 *)

(** C5, as stated, fails: the reset time of the error is not the header's
    text but the clock time it denotes. *)
Lemma rate_limit_reset_not_verbatim :
  let W := Utc.world_of (fun _ => Responded rate_limited_response) in
  headers_get (headers rate_limited_response) "X-RateLimit-Reset" = Some "1700000000"
  /\ rate_limit_reset W rate_limited_response = Ok "22:13:20"
  /\ rate_limit_reset W rate_limited_response <> Ok "1700000000"
  /\ handle_github_error W rate_limited_response
     = Raise (GitHubAPIError
                "Rate limit exceeded. Resets at 22:13:20. Remaining calls: 0"
                (Some 403) (Some "0")).
Proof.
  simpl. repeat split. discriminate.
Qed.

(** C5, amended: for a response with status 403 whose reset header, if any,
    converts, [handle_github_error] raises a [GitHubAPIError] of status 403
    whose [remaining_calls] is the [X-RateLimit-Remaining] header verbatim, or
    ["Unknown"] without it. The reset time is no attribute: it stands in the
    message, as ["Unknown"] when the [X-RateLimit-Reset] header is missing or
    empty and otherwise as the local [HH:MM:SS] time of the Unix instant the
    header holds. *)
Theorem handle_github_error_403 (W : world) (r : response) (reset : string) :
  status_code r = 403 ->
  rate_limit_reset W r = Ok reset ->
  handle_github_error W r
  = Raise (GitHubAPIError
             ("Rate limit exceeded. Resets at " ++ reset
              ++ ". Remaining calls: " ++ rate_limit_remaining r)
             (Some 403) (Some (rate_limit_remaining r)))
  /\ (forall v, headers_get (headers r) "X-RateLimit-Remaining" = Some v ->
                rate_limit_remaining r = v)
  /\ (headers_get (headers r) "X-RateLimit-Remaining" = None ->
      rate_limit_remaining r = "Unknown")
  /\ (headers_get (headers r) "X-RateLimit-Reset" = None -> reset = "Unknown")
  /\ (headers_get (headers r) "X-RateLimit-Reset" = Some "" -> reset = "Unknown")
  /\ (forall s, headers_get (headers r) "X-RateLimit-Reset" = Some s -> s <> "" ->
                exists t, py_int W s = Some t /\ strftime_hms W t = Some reset).
Proof.
  intros Hstatus Hreset.
  split.
  { unfold handle_github_error. rewrite Hreset. simpl. rewrite Hstatus. reflexivity. }
  unfold rate_limit_remaining, rate_limit_reset in *.
  repeat split.
  - intros v Hv. rewrite Hv. reflexivity.
  - intros Hv. rewrite Hv. reflexivity.
  - intros Hnone. rewrite Hnone in Hreset. congruence.
  - intros Hempty. rewrite Hempty in Hreset. simpl in Hreset. congruence.
  - intros s Hs Hne. rewrite Hs in Hreset.
    apply String.eqb_neq in Hne. rewrite Hne in Hreset.
    destruct (py_int W s) as [t|]; [|discriminate Hreset].
    exists t. split; [reflexivity|].
    destruct (strftime_hms W t); congruence.
Qed.

(** The rate-limited response with both headers. *)
Lemma handle_github_error_403_witness :
  handle_github_error (Utc.world_of (fun _ => TimedOut)) rate_limited_response
  = Raise (GitHubAPIError
             "Rate limit exceeded. Resets at 22:13:20. Remaining calls: 0"
             (Some 403) (Some "0")).
Proof.
  apply (handle_github_error_403 (Utc.world_of (fun _ => TimedOut))
           rate_limited_response "22:13:20"); reflexivity.
Defined.

(** Without the two headers. *)
Example handle_github_error_403_bare :
  handle_github_error (Utc.world_of (fun _ => TimedOut))
    {| status_code := 403; headers := []; text := ""; json_body := None |}
  = Raise (GitHubAPIError
             "Rate limit exceeded. Resets at Unknown. Remaining calls: Unknown"
             (Some 403) (Some "Unknown")).
Proof. reflexivity. Qed.

(** ** Status 404 through the three fetchers *)

(** [handle_github_error] returns to no caller. *)
Lemma handle_github_error_raises (W : world) (r : response) :
  exists e, handle_github_error W r = Raise e.
Proof.
  unfold handle_github_error, bind.
  destruct (rate_limit_reset W r); [|eauto].
  repeat match goal with
         | |- context [if ?c then _ else _] => destruct c
         end; eauto.
Qed.

(** The error of a 404 response whose reset header converts. *)
Lemma handle_github_error_404 (W : world) (r : response) (reset : string) :
  status_code r = 404 ->
  rate_limit_reset W r = Ok reset ->
  handle_github_error W r
  = Raise (GitHubAPIError "Repository not found. Please check the URL."
                          (Some 404) (Some (rate_limit_remaining r))).
Proof.
  intros Hstatus Hreset. unfold handle_github_error.
  rewrite Hreset. simpl. rewrite Hstatus. reflexivity.
Qed.

(** [fetch_repo_data] and [fetch_language_stats] raise it as it is. *)
Lemma fetch_repo_data_404 (W : world) (owner repo : string) (r : response)
    (reset : string) :
  http_get W (repo_url owner repo) = Responded r ->
  status_code r = 404 ->
  rate_limit_reset W r = Ok reset ->
  fetch_repo_data W owner repo
  = Raise (GitHubAPIError "Repository not found. Please check the URL."
                          (Some 404) (Some (rate_limit_remaining r))).
Proof.
  intros Hget Hstatus Hreset. unfold fetch_repo_data.
  rewrite Hget. simpl. rewrite Hstatus. simpl.
  rewrite (handle_github_error_404 W r reset Hstatus Hreset). reflexivity.
Qed.

Lemma fetch_language_stats_404 (W : world) (owner repo : string) (r : response)
    (reset : string) :
  http_get W (languages_url owner repo) = Responded r ->
  status_code r = 404 ->
  rate_limit_reset W r = Ok reset ->
  fetch_language_stats W owner repo
  = Raise (GitHubAPIError "Repository not found. Please check the URL."
                          (Some 404) (Some (rate_limit_remaining r))).
Proof.
  intros Hget Hstatus Hreset. unfold fetch_language_stats.
  rewrite Hget. simpl. rewrite Hstatus. simpl.
  rewrite (handle_github_error_404 W r reset Hstatus Hreset). reflexivity.
Qed.

(** [fetch_commit_activity] has no clause that lets a [GitHubAPIError]
    through: whatever the status that is neither 200 nor 202, its error has
    no status. *)
Lemma fetch_commit_activity_status_lost (W : world) (owner repo : string)
    (r : response) :
  http_get W (commit_activity_url owner repo) = Responded r ->
  status_code r <> 200 ->
  status_code r <> 202 ->
  exists message,
    fetch_commit_activity W owner repo = Raise (GitHubAPIError message None None).
Proof.
  intros Hget H200 H202. unfold fetch_commit_activity.
  rewrite Hget. simpl.
  apply Z.eqb_neq in H200, H202. rewrite H200, H202. simpl.
  destruct (handle_github_error_raises W r) as [e He]. rewrite He. simpl.
  destruct e; eauto.
Qed.

(** C7 on the code: the 404 response that makes [fetch_repo_data] and
    [fetch_language_stats] raise the normalizer's error of status 404 makes
    [fetch_commit_activity] raise an error without status, the normalizer's
    message wrapped in its own. *)
Theorem fetch_commit_activity_404_rewrapped :
  let W := Utc.world_of (fun _ => Responded not_found_response) in
  fetch_repo_data W "octocat" "Hello-World"
  = Raise (GitHubAPIError "Repository not found. Please check the URL."
                          (Some 404) (Some "59"))
  /\ fetch_language_stats W "octocat" "Hello-World"
     = Raise (GitHubAPIError "Repository not found. Please check the URL."
                             (Some 404) (Some "59"))
  /\ fetch_commit_activity W "octocat" "Hello-World"
     = Raise (GitHubAPIError
                "Error fetching commit activity: Repository not found. Please check the URL."
                None None).
Proof.
  simpl. repeat split.
Qed.

(** ** Commit activity: totals *)

Lemma ints_of_map (ds : list json) (l : list Z) :
  ints_of ds = Some l -> ds = map JInt l.
Proof.
  revert l. induction ds as [|d ds IH]; intros l H; simpl in H.
  - injection H as <-. reflexivity.
  - destruct d; try discriminate H.
    destruct (ints_of ds) as [l'|]; [|discriminate H].
    injection H as <-. simpl. f_equal. apply IH. reflexivity.
Qed.

Lemma well_formed_week_inv (W : world) (week : json) :
  well_formed_week W week = true ->
  exists fields t l d,
    week = JObj fields
    /\ assoc "week" fields = Some (JInt t)
    /\ assoc "total" fields = Some (JInt (sum_Z l))
    /\ assoc "days" fields = Some (JArr (map JInt l))
    /\ strftime_ymd W t = Some d
    /\ List.length l = 7%nat
    /\ week_total week = sum_Z l
    /\ week_days week = l.
Proof.
  intros H. destruct week as [| | | | |fields]; try discriminate H.
  unfold well_formed_week in H.
  destruct (assoc "week" fields) as [[| |t| | |]|] eqn:Hw; try discriminate H.
  destruct (assoc "total" fields) as [[| |n| | |]|] eqn:Ht; try discriminate H.
  destruct (assoc "days" fields) as [[| | | |ds|]|] eqn:Hd; try discriminate H.
  destruct (ints_of ds) as [l|] eqn:Hl; [|discriminate H].
  destruct (strftime_ymd W t) as [d|] eqn:Hymd; [|discriminate H].
  apply andb_true_iff in H. destruct H as [Hlen Hsum].
  apply Nat.eqb_eq in Hlen. apply Z.eqb_eq in Hsum. subst n.
  exists fields, t, l, d. unfold week_total, week_days.
  rewrite Ht, Hd, Hl. rewrite (ints_of_map ds l Hl) in *.
  repeat split; assumption.
Qed.

Lemma vec_add_length (a b : list Z) :
  List.length a = List.length b -> List.length (vec_add a b) = List.length a.
Proof.
  revert b. induction a as [|x a IH]; intros [|y b] H; simpl in *;
    try reflexivity; try discriminate H.
  f_equal. apply IH. lia.
Qed.

Lemma vec_add_sum (a b : list Z) :
  List.length a = List.length b -> sum_Z (vec_add a b) = sum_Z a + sum_Z b.
Proof.
  revert b. induction a as [|x a IH]; intros [|y b] H; simpl in *;
    try reflexivity; try discriminate H.
  rewrite IH by lia. lia.
Qed.

(** The generator sum adds the [total] of every week. *)
Lemma sum_gen_totals (W : world) (rows : list json) (acc : Z) :
  forallb (well_formed_week W) rows = true ->
  sum_gen (fun week => getitem week "total") acc rows
  = Ok (acc + sum_Z (map week_total rows)).
Proof.
  revert acc. induction rows as [|week rows IH]; intros acc H; simpl in *.
  - f_equal. lia.
  - apply andb_true_iff in H. destruct H as [Hweek Hrows].
    destruct (well_formed_week_inv W week Hweek)
      as (fields & t & l & d & -> & _ & Htotal & _ & _ & _ & Hwt & _).
    rewrite Hwt. simpl. rewrite Htotal. simpl.
    rewrite IH by assumption. f_equal. lia.
Qed.

Lemma weeks_converted (W : world) (rows : list json) :
  forallb (well_formed_week W) rows = true ->
  exists weeks,
    map_m (fun week => t <- getitem week "week" ;; fromtimestamp (strftime_ymd W) t) rows
    = Ok weeks
    /\ List.length weeks = List.length rows.
Proof.
  induction rows as [|week rows IH]; intros H; simpl in *.
  - exists []. split; reflexivity.
  - apply andb_true_iff in H. destruct H as [Hweek Hrows].
    destruct (well_formed_week_inv W week Hweek)
      as (fields & t & l & d & -> & Hw & _ & _ & Hymd & _).
    destruct (IH Hrows) as (weeks & Hweeks & Hlen).
    exists (d :: weeks). simpl. rewrite Hw. simpl.
    unfold fromtimestamp at 1. simpl. rewrite Hymd. simpl.
    rewrite Hweeks. simpl. split; [reflexivity | congruence].
Qed.

Lemma commits_listed (W : world) (rows : list json) :
  forallb (well_formed_week W) rows = true ->
  map_m (fun week => getitem week "total") rows
  = Ok (map (fun week => JInt (week_total week)) rows).
Proof.
  induction rows as [|week rows IH]; intros H; simpl in *.
  - reflexivity.
  - apply andb_true_iff in H. destruct H as [Hweek Hrows].
    destruct (well_formed_week_inv W week Hweek)
      as (fields & t & l & d & -> & _ & Htotal & _ & _ & _ & Hwt & _).
    rewrite Hwt. simpl. rewrite Htotal. simpl. rewrite IH by assumption.
    reflexivity.
Qed.

(** The inner loop adds the seven days of one week, slot by slot. *)
Lemma add_days_week (W : world) (week : json) (daily : list Z) :
  well_formed_week W week = true ->
  List.length daily = 7%nat ->
  add_days week (seq 0 7) daily = Ok (vec_add daily (week_days week)).
Proof.
  intros Hweek Hdaily.
  destruct (well_formed_week_inv W week Hweek)
    as (fields & t & l & d & -> & _ & _ & Hdays & _ & Hlen & _ & Hwd).
  rewrite Hwd.
  destruct l as [|x0 [|x1 [|x2 [|x3 [|x4 [|x5 [|x6 [|]]]]]]]]; try discriminate Hlen.
  destruct daily as [|d0 [|d1 [|d2 [|d3 [|d4 [|d5 [|d6 [|]]]]]]]];
    try discriminate Hdaily.
  simpl. rewrite Hdays. reflexivity.
Qed.

Lemma add_weeks_rows (W : world) (rows : list json) (daily : list Z) :
  forallb (well_formed_week W) rows = true ->
  List.length daily = 7%nat ->
  add_weeks rows daily = Ok (day_totals_from daily rows)
  /\ List.length (day_totals_from daily rows) = 7%nat
  /\ sum_Z (day_totals_from daily rows) = sum_Z daily + sum_Z (map week_total rows).
Proof.
  revert daily. induction rows as [|week rows IH]; intros daily H Hdaily.
  - simpl. repeat split; [assumption | lia].
  - simpl in H. apply andb_true_iff in H. destruct H as [Hweek Hrows].
    destruct (well_formed_week_inv W week Hweek)
      as (fields & t & l & d & Heq & _ & _ & _ & _ & Hlen & Hwt & Hwd).
    assert (Hlen' : List.length (vec_add daily (week_days week)) = 7%nat).
    { rewrite vec_add_length; congruence. }
    destruct (IH (vec_add daily (week_days week)) Hrows Hlen') as (Hrun & Hl & Hs).
    unfold add_weeks; fold add_weeks.
    rewrite (add_days_week W week daily Hweek Hdaily).
    unfold day_totals_from in *. simpl.
    repeat split; [exact Hrun | exact Hl |].
    rewrite Hs, vec_add_sum by congruence.
    rewrite Hwt, Hwd. lia.
Qed.

(** C1: on a 200 response whose payload is a non-empty list of well-formed
    week records, [fetch_commit_activity] returns the ready state, in which
    [commits] lists the weekly totals, [daily_commits] has seven slots holding
    the per-weekday sums, and [total_commits] is the sum of the weekly totals
    and the sum of the seven slots. *)
Theorem fetch_commit_activity_totals
    (W : world) (owner repo : string) (r : response) (rows : list json) :
  http_get W (commit_activity_url owner repo) = Responded r ->
  status_code r = 200 ->
  json_body r = Some (JArr rows) ->
  rows <> [] ->
  forallb (well_formed_week W) rows = true ->
  exists total weeks commits daily,
    fetch_commit_activity W owner repo = Ok (Some (Ready total weeks commits daily))
    /\ List.length weeks = List.length rows
    /\ commits = map (fun week => JInt (week_total week)) rows
    /\ daily = day_totals rows
    /\ List.length daily = 7%nat
    /\ total = sum_Z (map week_total rows)
    /\ total = sum_Z daily.
Proof.
  intros Hget Hstatus Hbody Hne Hrows.
  destruct (weeks_converted W rows Hrows) as (weeks & Hweeks & Hlen).
  destruct (add_weeks_rows W rows (repeat 0 7) Hrows eq_refl) as (Hrun & Hl & Hs).
  exists (sum_Z (map week_total rows)), weeks,
    (map (fun week => JInt (week_total week)) rows), (day_totals rows).
  split.
  - unfold fetch_commit_activity, response_json.
    rewrite Hget. simpl. rewrite Hstatus, Hbody. simpl.
    destruct rows as [|week rows]; [contradiction|].
    cbv beta iota.
    rewrite (sum_gen_totals W (week :: rows) 0 Hrows).
    unfold bind at 1. rewrite Hweeks.
    unfold bind at 1. rewrite (commits_listed W (week :: rows) Hrows).
    change (repeat 0 7) with [0; 0; 0; 0; 0; 0; 0] in Hrun.
    unfold bind at 1. rewrite Hrun. reflexivity.
  - repeat split; try assumption.
    unfold day_totals. rewrite Hs. reflexivity.
Qed.

(** The two weeks of the specification's scenario, starting on 2023-01-01
    and 2023-01-08: eight commits, and the seven weekday sums. *)
Lemma fetch_commit_activity_totals_witness :
  let r := ok_response (JArr (two_weeks 1672531200 1673136000)) in
  fetch_commit_activity (Utc.world_of (fun _ => Responded r)) "octocat" "Hello-World"
  = Ok (Some (Ready 8 ["2023-01-01"; "2023-01-08"] [JInt 5; JInt 3]
                [1; 1; 1; 0; 0; 1; 4])).
Proof.
  intro r.
  destruct (fetch_commit_activity_totals
              (Utc.world_of (fun _ => Responded r)) "octocat" "Hello-World" r
              (two_weeks 1672531200 1673136000) eq_refl eq_refl eq_refl)
    as (total & weeks & commits & daily & Hfetch & _);
    [discriminate | reflexivity |].
  reflexivity.
Defined.

(** The scenario of the specification, whatever the clock makes of the two
    week starts. *)
Example commit_activity_scenario (W : world) (t1 t2 : Z) (d1 d2 : string) :
  strftime_ymd W t1 = Some d1 ->
  strftime_ymd W t2 = Some d2 ->
  http_get W (commit_activity_url "octocat" "Hello-World")
  = Responded (ok_response (JArr (two_weeks t1 t2))) ->
  fetch_commit_activity W "octocat" "Hello-World"
  = Ok (Some (Ready 8 [d1; d2] [JInt 5; JInt 3] [1; 1; 1; 0; 0; 1; 4])).
Proof.
  intros H1 H2 Hget. unfold fetch_commit_activity.
  rewrite Hget. simpl. unfold fromtimestamp. simpl. rewrite H1, H2. reflexivity.
Qed.

(** ** Language composition: percentages *)

(** C2, as stated, fails. The byte counts of a non-empty mapping can sum to
    zero: the division raises and the fetcher returns no mapping. And the
    percentages are floats: for one and two bytes they are 33.33333333333333
    and 66.66666666666666, neither the exact [100 * 1 / 3] nor the float that
    [100 * 1 / 3] evaluates to, and their sum is not 100. Beside a count of
    [2 ^ 1080] one byte gets the percentage zero, its quotient being below
    the least positive float; and with a negative count the percentages sum
    to zero. *)
Lemma fetch_language_stats_inexact :
  (let r := ok_response (byte_counts [("Python", 0)]) in
   fetch_language_stats (Utc.world_of (fun _ => Responded r)) "octocat" "Hello-World"
   = Raise (GitHubAPIError "Error fetching language statistics: division by zero"
                           None None))
  /\ (let r := ok_response (byte_counts [("A", 1); ("B", 2)]) in
      let pa := Finite false 4691249611844266 (-47) in
      let pb := Finite false 4691249611844266 (-46) in
      fetch_language_stats (Utc.world_of (fun _ => Responded r)) "octocat" "Hello-World"
      = Ok (Some [("A", pa); ("B", pb)])
      /\ ~ (value pa == 100 * 1 / 3)%Q
      /\ truediv (100 * 1) 3 = Ok (Finite false 4691249611844267 (-47))
      /\ ~ (value pa + value pb == 100)%Q)
  /\ (let r := ok_response (byte_counts [("A", 1); ("B", 2 ^ 1080)]) in
      fetch_language_stats (Utc.world_of (fun _ => Responded r)) "octocat" "Hello-World"
      = Ok (Some [("A", Finite false 0 0); ("B", Finite false 7036874417766400 (-46))]))
  /\ (let r := ok_response (byte_counts [("A", 2 ^ 60 + 1); ("B", - 2 ^ 60)]) in
      let pa := Finite false 7036874417766400 14 in
      let pb := Finite true 7036874417766400 14 in
      fetch_language_stats (Utc.world_of (fun _ => Responded r)) "octocat" "Hello-World"
      = Ok (Some [("A", pa); ("B", pb)])
      /\ (value pa + value pb == 0)%Q).
Proof.
  split; [reflexivity|].
  split.
  { cbv zeta. split; [vm_compute; reflexivity|].
    split; [intros H; vm_compute in H; discriminate H|].
    split; [vm_compute; reflexivity|].
    intros H; vm_compute in H; discriminate H. }
  split; [vm_compute; reflexivity|].
  cbv zeta. split; vm_compute; reflexivity.
Qed.

Lemma py_sum_byte_counts (bytes : list (string * Z)) (acc : Z) :
  sum_gen (fun x => Ok x) acc
          (map snd (map (fun kv : string * Z => (fst kv, JInt (snd kv))) bytes))
  = Ok (acc + sum_Z (map snd bytes)).
Proof.
  revert acc. induction bytes as [|[lang count] bytes IH]; intros acc; simpl.
  - f_equal. lia.
  - rewrite IH. f_equal. lia.
Qed.

(** *** Rounding to the nearest float *)

Local Open Scope Q_scope.

Lemma pow2_pos (k : Z) : 0 < pow2 k.
Proof. apply Qpower_0_lt. reflexivity. Qed.

Lemma pow2_add (a b : Z) : pow2 (a + b) == pow2 a * pow2 b.
Proof. apply Qpower_plus. discriminate. Qed.

Lemma pow2_succ (k : Z) : pow2 (k + 1) == 2 * pow2 k.
Proof. rewrite pow2_add. change (pow2 1) with (2 # 1). ring. Qed.

Lemma pow2_pred (k : Z) : pow2 k == 2 * pow2 (k - 1).
Proof. rewrite <- pow2_succ. replace (k - 1 + 1)%Z with k by lia. reflexivity. Qed.

Lemma pow2_le (a b : Z) : (a <= b)%Z -> pow2 a <= pow2 b.
Proof. intros H. apply Qpower_le_compat_l; [exact H | discriminate]. Qed.

Lemma pow2_nat (k : Z) : (0 <= k)%Z -> pow2 k == inject_Z (2 ^ k).
Proof. intros H. rewrite Zpower_Qpower by exact H. reflexivity. Qed.

(** Rounding to the nearest integer moves by at most one half. *)
Lemma round_half_even_error (x : Q) :
  x - (1 # 2) <= inject_Z (round_half_even x) <= x + (1 # 2).
Proof.
  unfold round_half_even.
  pose proof (Qfloor_le x) as Hlo. pose proof (Qlt_floor x) as Hhi.
  rewrite inject_Z_plus in Hhi. change (inject_Z 1) with 1 in Hhi.
  destruct (x - inject_Z (Qfloor x) ?= 1 # 2) eqn:Hc.
  - apply Qeq_alt in Hc.
    destruct (Z.even (Qfloor x)); [|rewrite inject_Z_plus; change (inject_Z 1) with 1];
      lra.
  - apply Qlt_alt in Hc. lra.
  - apply Qgt_alt in Hc. rewrite inject_Z_plus. change (inject_Z 1) with 1. lra.
Qed.

Lemma round_half_even_nonneg (x : Q) : 0 <= x -> (0 <= round_half_even x)%Z.
Proof.
  intros Hx. unfold round_half_even.
  assert (H0 : (0 <= Qfloor x)%Z).
  { change 0%Z with (Qfloor 0). apply Qfloor_resp_le. exact Hx. }
  destruct (x - inject_Z (Qfloor x) ?= 1 # 2); [destruct (Z.even (Qfloor x))| |]; lia.
Qed.

(** [ilog2 a] is the exponent of the binade of [a]. *)
Lemma ilog2_spec (a : Q) : 0 < a -> pow2 (ilog2 a) <= a < pow2 (ilog2 a + 1).
Proof.
  intros Ha. unfold ilog2.
  destruct a as [n d]. unfold Qlt in Ha. simpl in Ha. rewrite Z.mul_1_r in Ha.
  cbn [Qnum Qden].
  set (ln := Z.log2 n). set (ld := Z.log2 (Zpos d)).
  destruct (Z.log2_spec n Ha) as [Hn1 Hn2]. fold ln in Hn1, Hn2.
  destruct (Z.log2_spec (Zpos d) eq_refl) as [Hd1 Hd2]. fold ld in Hd1, Hd2.
  assert (Hln : (0 <= ln)%Z) by apply Z.log2_nonneg.
  assert (Hld : (0 <= ld)%Z) by apply Z.log2_nonneg.
  assert (HN1 : pow2 ln <= inject_Z n).
  { rewrite pow2_nat by exact Hln. rewrite <- Zle_Qle. exact Hn1. }
  assert (HN2 : inject_Z n < 2 * pow2 ln).
  { rewrite <- pow2_succ, pow2_nat by lia. rewrite <- Zlt_Qlt.
    replace (ln + 1)%Z with (Z.succ ln) by lia. exact Hn2. }
  assert (HD1 : pow2 ld <= inject_Z (Zpos d)).
  { rewrite pow2_nat by exact Hld. rewrite <- Zle_Qle. exact Hd1. }
  assert (HD2 : inject_Z (Zpos d) < 2 * pow2 ld).
  { rewrite <- pow2_succ, pow2_nat by lia. rewrite <- Zlt_Qlt.
    replace (ld + 1)%Z with (Z.succ ld) by lia. exact Hd2. }
  assert (Hk : pow2 (ln - ld) * pow2 ld == pow2 ln).
  { rewrite <- pow2_add. replace (ln - ld + ld)%Z with ln by lia. reflexivity. }
  assert (Had : (n # d) * inject_Z (Zpos d) == inject_Z n).
  { rewrite (Qmake_Qdiv n d). field. discriminate. }
  pose proof (pow2_pos (ln - ld)) as Pk. pose proof (pow2_pos ld) as Pd.
  pose proof (pow2_pos ln) as Pn.
  assert (Hapos : 0 < n # d) by (unfold Qlt; simpl; lia).
  assert (Hlow : pow2 (ln - ld) < 2 * (n # d)).
  { apply Qnot_le_lt. intros Hc.
    assert (2 * (n # d) * inject_Z (Zpos d) <= pow2 (ln - ld) * inject_Z (Zpos d)).
    { apply Qmult_le_compat_r; [exact Hc | lra]. }
    assert (pow2 (ln - ld) * inject_Z (Zpos d) < pow2 (ln - ld) * (2 * pow2 ld)).
    { apply Qmult_lt_l; assumption. }
    lra. }
  assert (Hup : (n # d) < 2 * pow2 (ln - ld)).
  { apply Qnot_le_lt. intros Hc.
    assert (2 * pow2 (ln - ld) * pow2 ld <= (n # d) * pow2 ld).
    { apply Qmult_le_compat_r; [exact Hc | lra]. }
    assert ((n # d) * pow2 ld <= (n # d) * inject_Z (Zpos d)).
    { apply Qmult_le_l; assumption. }
    lra. }
  destruct (Qle_bool (pow2 (ln - ld)) (n # d)) eqn:Hb.
  - apply Qle_bool_iff in Hb. rewrite pow2_succ. split; [exact Hb | exact Hup].
  - assert (Hlt : (n # d) < pow2 (ln - ld)).
    { apply Qnot_le_lt. intros Hc. apply Qle_bool_iff in Hc. congruence. }
    replace (ln - ld - 1 + 1)%Z with (ln - ld)%Z by lia.
    rewrite (pow2_pred (ln - ld)) in Hlow. split; [lra | exact Hlt].
Qed.

(** The nearest float of a magnitude in the normal range is finite and within
    a relative [2^-53] of it. *)
Lemma nearest_normal (s : bool) (a : Q) :
  pow2 (-1022) <= a -> a <= pow2 1023 ->
  exists m e, nearest s a = Finite s m e
              /\ (0 <= m)%Z
              /\ a * (1 - pow2 (-53)) <= inject_Z m * pow2 e <= a * (1 + pow2 (-53)).
Proof.
  intros Hlo Hhi.
  pose proof (pow2_pos (-1022)) as P0.
  assert (Ha : 0 < a) by lra.
  destruct (ilog2_spec a Ha) as [Hl Hu].
  assert (He : (-1022 <= ilog2 a)%Z).
  { destruct (Z_le_gt_dec (-1022) (ilog2 a)) as [H|H]; [exact H|].
    pose proof (pow2_le (ilog2 a + 1) (-1022) ltac:(lia)). lra. }
  unfold nearest.
  destruct (Qeq_bool a 0) eqn:Hz.
  { apply Qeq_bool_iff in Hz. lra. }
  rewrite Z.max_l by exact He.
  set (e := (ilog2 a - 52)%Z).
  set (m := round_half_even (a / pow2 e)).
  pose proof (pow2_pos e) as Pe.
  assert (Hle : pow2 (ilog2 a) == pow2 e * pow2 52).
  { rewrite <- pow2_add. unfold e. replace (ilog2 a - 52 + 52)%Z with (ilog2 a) by lia.
    reflexivity. }
  assert (H53 : pow2 52 * pow2 (-53) == 1 # 2) by reflexivity.
  pose proof (round_half_even_error (a / pow2 e)) as [Hm1 Hm2]. fold m in Hm1, Hm2.
  assert (Hdiv : a / pow2 e * pow2 e == a) by (field; lra).
  assert (Hv1 : a - (1 # 2) * pow2 e <= inject_Z m * pow2 e).
  { assert ((a / pow2 e - (1 # 2)) * pow2 e <= inject_Z m * pow2 e).
    { apply Qmult_le_compat_r; lra. }
    lra. }
  assert (Hv2 : inject_Z m * pow2 e <= a + (1 # 2) * pow2 e).
  { assert (inject_Z m * pow2 e <= (a / pow2 e + (1 # 2)) * pow2 e).
    { apply Qmult_le_compat_r; lra. }
    lra. }
  assert (Hrel : (1 # 2) * pow2 e <= a * pow2 (-53)).
  { pose proof (pow2_pos (-53)) as P53.
    assert (pow2 e * pow2 52 * pow2 (-53) <= a * pow2 (-53)).
    { apply Qmult_le_compat_r; lra. }
    assert (pow2 e * (pow2 52 * pow2 (-53)) == pow2 e * (1 # 2)).
    { rewrite H53. reflexivity. }
    lra. }
  assert (Hm0 : (0 <= m)%Z).
  { apply round_half_even_nonneg. apply Qle_shift_div_l; lra. }
  destruct (Qle_bool (pow2 1024) (inject_Z m * pow2 e)) eqn:Hover.
  { apply Qle_bool_iff in Hover.
    assert (pow2 (-53) <= 1) by (vm_compute; discriminate).
    assert (pow2 1024 == 2 * pow2 1023) by (rewrite <- pow2_succ; reflexivity).
    assert (a * pow2 (-53) <= a * 1) by (apply Qmult_le_l; lra).
    pose proof (pow2_pos 1023).
    assert (a + a * pow2 (-53) < 2 * pow2 1023).
    { assert (a < pow2 1023 \/ a == pow2 1023) as [Hlt|Heq].
      { destruct (Qlt_le_dec a (pow2 1023)); [left; assumption|right; lra]. }
      - lra.
      - assert (a * pow2 (-53) < a * 1) by (apply Qmult_lt_l; [lra | vm_compute; reflexivity]).
        lra. }
    lra. }
  exists m, e. split; [reflexivity|]. split; [exact Hm0|]. lra.
Qed.

(** The nearest float of zero, or of a magnitude in the normal range. *)
Lemma nearest_bounds (s : bool) (a : Q) :
  a == 0 \/ (pow2 (-1022) <= a /\ a <= pow2 1023) ->
  exists m e, nearest s a = Finite s m e
              /\ (0 <= m)%Z
              /\ a * (1 - pow2 (-53)) <= inject_Z m * pow2 e <= a * (1 + pow2 (-53)).
Proof.
  intros [Hz | [Hlo Hhi]]; [|apply nearest_normal; assumption].
  exists 0%Z, 0%Z. unfold nearest.
  assert (Hb : Qeq_bool a 0 = true) by (apply Qeq_bool_iff; exact Hz).
  rewrite Hb. split; [reflexivity|]. split; [lia|].
  rewrite Hz. change (inject_Z 0 * pow2 0) with (0 * 1). lra.
Qed.

(** [(count / total) * 100] for a count out of a total without underflow:
    a finite float within a relative [2^-51] of the exact percentage. *)
Lemma percentage_bounds (count total : Z) :
  (0 <= count <= total)%Z ->
  (0 < total <= 2 ^ 1022)%Z ->
  exists q p,
    truediv count total = Ok q
    /\ float_mul q hundred = p
    /\ is_finite p = true
    /\ inject_Z count / inject_Z total * 100 * (1 - pow2 (-51))
       <= value p
       <= inject_Z count / inject_Z total * 100 * (1 + pow2 (-51)).
Proof.
  intros [Hc0 HcT] [HT0 HTmax].
  set (x := inject_Z count / inject_Z total).
  assert (HTq : 0 < inject_Z total).
  { change 0 with (inject_Z 0). rewrite <- Zlt_Qlt. exact HT0. }
  assert (Hx0 : 0 <= x).
  { unfold x. apply Qle_shift_div_l; [exact HTq|].
    setoid_replace (0 * inject_Z total) with (inject_Z 0) by ring.
    rewrite <- Zle_Qle. exact Hc0. }
  assert (Hx1 : x <= 1).
  { unfold x. apply Qle_shift_div_r; [exact HTq|].
    setoid_replace (1 * inject_Z total) with (inject_Z total) by ring.
    rewrite <- Zle_Qle. exact HcT. }
  assert (Hxabs : Qabs x == x) by (apply Qabs_pos; exact Hx0).
  assert (P1022 : pow2 (-1022) * pow2 1022 == 1) by reflexivity.
  pose proof (pow2_pos (-1022)) as Plo. pose proof (pow2_pos 1022) as Phi'.
  assert (P1023 : 200 <= pow2 1023) by (vm_compute; discriminate).
  assert (Hrange : x == 0 \/ pow2 (-1022) <= x).
  { destruct (Z.eq_dec count 0) as [-> | Hne].
    - left. unfold x. change (inject_Z 0) with 0. field. lra.
    - right. unfold x. apply Qle_shift_div_l; [exact HTq|].
      assert (inject_Z total <= pow2 1022).
      { rewrite pow2_nat by lia. rewrite <- Zle_Qle. exact HTmax. }
      assert (1 <= inject_Z count).
      { change 1 with (inject_Z 1). rewrite <- Zle_Qle. lia. }
      assert (pow2 (-1022) * inject_Z total <= pow2 (-1022) * pow2 1022).
      { apply Qmult_le_l; assumption. }
      lra. }
  assert (Hsign : xorb (count <? 0)%Z (total <? 0)%Z = false).
  { replace (count <? 0)%Z with false by (symmetry; apply Z.ltb_ge; lia).
    replace (total <? 0)%Z with false by (symmetry; apply Z.ltb_ge; lia).
    reflexivity. }
  destruct (nearest_bounds false (Qabs x)) as (m & e & Hq & Hm & Hq1 & Hq2).
  { rewrite Hxabs. destruct Hrange as [Hz | Hn]; [left; exact Hz | right; lra]. }
  rewrite Hxabs in Hq1, Hq2.
  change (pow2 (-53)) with (1 # 9007199254740992) in Hq1, Hq2.
  set (y := magnitude (Finite false m e) * magnitude hundred).
  assert (Hy : y == inject_Z m * pow2 e * 100).
  { unfold y, magnitude, hundred. change (inject_Z 100 * pow2 0) with (100 * 1). ring. }
  destruct (nearest_bounds false y) as (m' & e' & Hp & Hm' & Hp1 & Hp2).
  { rewrite Hy. destruct Hrange as [Hz | Hn].
    - left. rewrite Hz in Hq1, Hq2. lra.
    - right. lra. }
  rewrite Hy in Hp1, Hp2.
  change (pow2 (-53)) with (1 # 9007199254740992) in Hp1, Hp2.
  exists (Finite false m e), (Finite false m' e').
  split.
  { unfold truediv. replace (total =? 0)%Z with false by (symmetry; apply Z.eqb_neq; lia).
    rewrite Hsign. fold x. rewrite Hq. reflexivity. }
  split.
  { unfold float_mul, hundred. cbn [xorb]. fold hundred. fold y. exact Hp. }
  split; [reflexivity|].
  cbn [value magnitude].
  change (pow2 (-51)) with (1 # 2251799813685248). lra.
Qed.

Lemma sum_Z_bound (l : list (string * Z)) (b : string * Z) :
  Forall (fun b => (0 <= snd b)%Z) l -> In b l -> (snd b <= sum_Z (map snd l))%Z.
Proof.
  induction 1 as [|c l Hc Hl IH]; intros Hin; [contradiction|].
  assert (0 <= sum_Z (map snd l))%Z.
  { clear -Hl. induction Hl; simpl; lia. }
  simpl. destruct Hin as [-> | Hin]; [lia|]. specialize (IH Hin). lia.
Qed.

(** The loop over the items of a payload of byte counts. *)
Lemma percentages_computed (total : Z) (bytes : list (string * Z)) :
  (0 < total <= 2 ^ 1022)%Z ->
  Forall (fun b => (0 <= snd b <= total)%Z) bytes ->
  exists stats,
    map_m (fun item : string * json =>
             count <- as_number "/" (snd item) ;;
             q <- truediv count total ;;
             Ok (fst item, float_mul q hundred))
          (map (fun kv : string * Z => (fst kv, JInt (snd kv))) bytes)
    = Ok stats
    /\ map fst stats = map fst bytes
    /\ Forall2 (fun (s : string * float) (b : string * Z) =>
                  fst s = fst b
                  /\ (exists q, truediv (snd b) total = Ok q
                                /\ snd s = float_mul q hundred)
                  /\ is_finite (snd s) = true
                  /\ Qabs (value (snd s) - 100 * inject_Z (snd b) / inject_Z total)
                     <= pow2 (-51) * (100 * inject_Z (snd b) / inject_Z total))
               stats bytes
    /\ inject_Z (sum_Z (map snd bytes)) / inject_Z total * 100 * (1 - pow2 (-51))
       <= sum_Q (map (fun s => value (snd s)) stats)
       <= inject_Z (sum_Z (map snd bytes)) / inject_Z total * 100 * (1 + pow2 (-51)).
Proof.
  intros HT Hbytes.
  assert (HTq : ~ inject_Z total == 0).
  { intros H. unfold Qeq in H. simpl in H. lia. }
  induction Hbytes as [|[lang count] bytes Hc Hrest IH].
  - exists []. simpl. repeat split; [constructor | |];
      change (inject_Z 0) with 0; unfold Qdiv; rewrite !Qmult_0_l; apply Qle_refl.
  - destruct IH as (stats & Hmap & Hkeys & Hall & Hlo & Hhi).
    cbn [snd] in Hc.
    destruct (percentage_bounds count total Hc HT) as (q & p & Hq & Hp & Hfin & Hp1 & Hp2).
    exists ((lang, p) :: stats).
    split.
    { cbn [map map_m fst snd as_number bind]. rewrite Hq. cbn [bind].
      rewrite Hp, Hmap. reflexivity. }
    split; [cbn [map fst]; f_equal; exact Hkeys|].
    split.
    { constructor; [|exact Hall]. cbn [fst snd].
      split; [reflexivity|]. split; [exists q; split; [exact Hq | symmetry; exact Hp]|].
      split; [exact Hfin|].
      apply Qabs_Qle_condition.
      change (pow2 (-51)) with (1 # 2251799813685248) in *.
      set (x := inject_Z count / inject_Z total) in *.
      assert (Hx : 100 * inject_Z count / inject_Z total == x * 100).
      { unfold x. field. exact HTq. }
      rewrite Hx. lra. }
    cbn [map sum_Q sum_Z snd].
    rewrite inject_Z_plus.
    change (pow2 (-51)) with (1 # 2251799813685248) in *.
    set (x := inject_Z count / inject_Z total) in *.
    set (X := inject_Z (sum_Z (map snd bytes)) / inject_Z total) in *.
    assert (Hsum : (inject_Z count + inject_Z (sum_Z (map snd bytes))) / inject_Z total
                   == x + X).
    { unfold x, X. field. exact HTq. }
    rewrite Hsum. lra.
Qed.

Local Close Scope Q_scope.

(** C2, amended: on a 200 response whose payload is a non-empty mapping of
    non-negative byte counts with a total that is not zero and at most 2^1022
    (no quotient underflows), [fetch_language_stats] returns a mapping with
    the same languages in the same order; each percentage is the float
    [(bytes / total) * 100], finite and within a relative [2^-51] of the exact
    [100 * bytes / total], and the percentages sum to 100 within [1e-6]. *)
Theorem fetch_language_stats_percentages
    (W : world) (owner repo : string) (r : response) (bytes : list (string * Z)) :
  http_get W (languages_url owner repo) = Responded r ->
  status_code r = 200 ->
  json_body r = Some (byte_counts bytes) ->
  bytes <> [] ->
  Forall (fun b => 0 <= snd b) bytes ->
  sum_Z (map snd bytes) <> 0 ->
  sum_Z (map snd bytes) <= 2 ^ 1022 ->
  exists stats,
    fetch_language_stats W owner repo = Ok (Some stats)
    /\ map fst stats = map fst bytes
    /\ Forall2 (fun (s : string * float) (b : string * Z) =>
                  fst s = fst b
                  /\ (exists q, truediv (snd b) (sum_Z (map snd bytes)) = Ok q
                                /\ snd s = float_mul q hundred)
                  /\ is_finite (snd s) = true
                  /\ (Qabs (value (snd s)
                            - 100 * inject_Z (snd b)
                              / inject_Z (sum_Z (map snd bytes)))
                      <= pow2 (-51)
                         * (100 * inject_Z (snd b)
                            / inject_Z (sum_Z (map snd bytes))))%Q)
               stats bytes
    /\ (Qabs (sum_Q (map (fun s => value (snd s)) stats) - 100) <= 1 # 1000000)%Q.
Proof.
  intros Hget Hstatus Hbody Hne Hpos Htotal Hmax.
  set (total := sum_Z (map snd bytes)) in *.
  assert (Hnonneg : 0 <= total).
  { unfold total. clear -Hpos. induction Hpos; simpl; lia. }
  assert (HT : 0 < total <= 2 ^ 1022) by lia.
  assert (Hbounded : Forall (fun b => 0 <= snd b <= total) bytes).
  { apply Forall_forall. intros b Hb. split.
    - exact (proj1 (Forall_forall _ _) Hpos b Hb).
    - exact (sum_Z_bound bytes b Hpos Hb). }
  destruct (percentages_computed total bytes HT Hbounded)
    as (stats & Hmap & Hkeys & Hall & Hlo & Hhi).
  exists stats.
  split; [|split; [exact Hkeys | split; [exact Hall|]]].
  - unfold fetch_language_stats, response_json.
    rewrite Hget. cbn [requests_get_result bind]. rewrite Hstatus, Hbody.
    change (200 =? 200) with true. cbn [negb bind].
    unfold byte_counts.
    destruct bytes as [|b bytes]; [contradiction|].
    change (truthy (JObj (map (fun kv : string * Z => (fst kv, JInt (snd kv)))
                              (b :: bytes)))) with true.
    cbn [negb]. unfold dict_values, dict_items, py_sum. cbn [bind].
    rewrite (py_sum_byte_counts (b :: bytes) 0). cbn [bind].
    change (0 + sum_Z (map snd (b :: bytes))) with total.
    rewrite Hmap. reflexivity.
  - apply Qabs_Qle_condition.
    assert (Hone : (inject_Z total / inject_Z total == 1)%Q).
    { field. intros H. unfold Qeq in H. simpl in H. lia. }
    fold total in Hlo, Hhi. rewrite Hone in Hlo, Hhi.
    change (pow2 (-51)) with (1 # 2251799813685248)%Q in Hlo, Hhi.
    lra.
Qed.

(** The scenario of the specification: 300 and 100 bytes give the floats 75
    and 25. *)
Lemma fetch_language_stats_percentages_witness :
  let r := ok_response (byte_counts [("Python", 300); ("JavaScript", 100)]) in
  exists stats,
    fetch_language_stats (Utc.world_of (fun _ => Responded r)) "octocat" "Hello-World"
    = Ok (Some stats)
    /\ map (fun s : string * float => (fst s, Qred (value (snd s)))) stats
       = [("Python", (75 # 1)%Q); ("JavaScript", (25 # 1)%Q)]
    /\ (Qabs (sum_Q (map (fun s => value (snd s)) stats) - 100) <= 1 # 1000000)%Q.
Proof.
  intro r.
  destruct (fetch_language_stats_percentages
              (Utc.world_of (fun _ => Responded r)) "octocat" "Hello-World" r
              [("Python", 300); ("JavaScript", 100)] eq_refl eq_refl eq_refl)
    as (stats & Hfetch & _ & _ & Hsum);
    [discriminate | repeat constructor; discriminate | discriminate
    | vm_compute; discriminate |].
  exists stats. split; [exact Hfetch|].
  split; [|exact Hsum].
  vm_compute in Hfetch. injection Hfetch as <-. vm_compute. reflexivity.
Defined.

(** ** Identifier extractor *)

Lemma span_segment_spec (s seg rest : string) :
  span_segment s = (seg, rest) ->
  s = seg ++ rest
  /\ no_slash seg = true
  /\ (rest = "" \/ exists t, rest = String "/" t).
Proof.
  revert seg rest. induction s as [|c s IH]; intros seg rest H; simpl in H.
  - injection H as <- <-. repeat split. left. reflexivity.
  - destruct (c =? "/")%char eqn:Hc.
    + injection H as <- <-. apply Ascii.eqb_eq in Hc. subst c.
      repeat split. right. eexists. reflexivity.
    + destruct (span_segment s) as [seg' rest'] eqn:Hs.
      injection H as <- <-.
      destruct (IH seg' rest' eq_refl) as (-> & Hno & Hrest).
      simpl. rewrite Hc, Hno. repeat split. exact Hrest.
Qed.

Lemma span_segment_segment (seg rest : string) :
  no_slash seg = true ->
  span_segment (seg ++ String "/" rest) = (seg, String "/" rest).
Proof.
  induction seg as [|c seg IH]; intros H; simpl in *.
  - reflexivity.
  - apply andb_true_iff in H. destruct H as [Hc Hseg].
    apply negb_true_iff in Hc. rewrite Hc, (IH Hseg). reflexivity.
Qed.

Lemma strip_prefix_spec (p s r : string) :
  strip_prefix p s = Some r -> s = p ++ r.
Proof.
  revert s. induction p as [|a p IH]; intros s H; simpl in H.
  - injection H as <-. reflexivity.
  - destruct s as [|b s]; [discriminate H|].
    destruct (a =? b)%char eqn:Hab; [|discriminate H].
    apply Ascii.eqb_eq in Hab. subst b. simpl. f_equal. apply IH. exact H.
Qed.

(** What [re.search] finds is an occurrence of the pattern: the host, a
    non-empty owner and a non-empty name, both without a slash, the name cut
    at the next slash or at the end of the string. *)
Lemma match_here_sound (s owner repo : string) :
  match_here s = Some (owner, repo) ->
  exists post,
    s = "github.com/" ++ owner ++ "/" ++ repo ++ post
    /\ owner <> "" /\ repo <> ""
    /\ no_slash owner = true /\ no_slash repo = true
    /\ (post = "" \/ exists t, post = String "/" t).
Proof.
  unfold match_here. intros H.
  destruct (strip_prefix "github.com/" s) as [r|] eqn:Hp; [|discriminate H].
  apply strip_prefix_spec in Hp.
  destruct (span_segment r) as [o r1] eqn:Ho.
  destruct (span_segment_spec r o r1 Ho) as (-> & Hno & _).
  destruct o as [|c o]; [discriminate H|].
  destruct r1 as [|c1 r2]; [discriminate H|].
  destruct (c1 =? "/")%char eqn:Hc1; [|discriminate H].
  apply Ascii.eqb_eq in Hc1. subst c1.
  destruct (span_segment r2) as [n post] eqn:Hn.
  destruct (span_segment_spec r2 n post Hn) as (-> & Hnn & Hpost).
  destruct n as [|c2 n]; [discriminate H|].
  injection H as <- <-.
  exists post. subst s.
  repeat split; try assumption; try discriminate.
Qed.

Lemma re_search_sound (s owner repo : string) :
  re_search s = Some (owner, repo) ->
  exists pre post,
    s = pre ++ "github.com/" ++ owner ++ "/" ++ repo ++ post
    /\ owner <> "" /\ repo <> ""
    /\ no_slash owner = true /\ no_slash repo = true
    /\ (post = "" \/ exists t, post = String "/" t).
Proof.
  induction s as [|c s IH]; intros H.
  - discriminate H.
  - unfold re_search in H; fold re_search in H.
    destruct (match_here (String c s)) as [[o n]|] eqn:Hm.
    + injection H as <- <-.
      destruct (match_here_sound _ _ _ Hm) as (post & Hs & Hrest).
      exists "", post. split; [exact Hs | exact Hrest].
    + destruct (IH H) as (pre & post & -> & Hrest).
      exists (String c pre), post. split; [reflexivity | exact Hrest].
Qed.

(** A string that holds the host followed by two non-empty segments is
    matched. *)
Lemma match_here_complete (owner rest : string) (c : ascii) :
  owner <> "" ->
  no_slash owner = true ->
  c <> "/"%char ->
  match_here ("github.com/" ++ owner ++ "/" ++ String c rest) <> None.
Proof.
  intros Hne Hno Hc. unfold match_here.
  change (strip_prefix "github.com/" ("github.com/" ++ owner ++ "/" ++ String c rest))
    with (Some (owner ++ String "/" (String c rest))).
  cbv beta iota.
  rewrite (span_segment_segment owner (String c rest) Hno).
  destruct owner as [|a owner]; [contradiction|].
  change ("/" =? "/")%char with true. cbv beta iota.
  simpl span_segment.
  apply Ascii.eqb_neq in Hc. rewrite Hc.
  destruct (span_segment rest). discriminate.
Qed.

Lemma re_search_complete (pre owner rest : string) (c : ascii) :
  owner <> "" ->
  no_slash owner = true ->
  c <> "/"%char ->
  re_search (pre ++ "github.com/" ++ owner ++ "/" ++ String c rest) <> None.
Proof.
  intros Hne Hno Hc. induction pre as [|a pre IH].
  - pose proof (match_here_complete owner rest c Hne Hno Hc) as Hm.
    change ("" ++ "github.com/" ++ owner ++ "/" ++ String c rest)
      with (String "g" ("ithub.com/" ++ owner ++ "/" ++ String c rest)).
    change ("github.com/" ++ owner ++ "/" ++ String c rest)
      with (String "g" ("ithub.com/" ++ owner ++ "/" ++ String c rest)) in Hm.
    unfold re_search; fold re_search.
    destruct (match_here (String "g" ("ithub.com/" ++ owner ++ "/" ++ String c rest)));
      [discriminate | contradiction].
  - change (String a pre ++ "github.com/" ++ owner ++ "/" ++ String c rest)
      with (String a (pre ++ "github.com/" ++ owner ++ "/" ++ String c rest)).
    unfold re_search; fold re_search.
    destruct (match_here
                (String a (pre ++ "github.com/" ++ owner ++ "/" ++ String c rest)));
      [discriminate | exact IH].
Qed.

(** Without a match the result is the null pair. *)
Lemma extract_repo_info_no_match (url : string) :
  re_search url = None -> extract_repo_info url = (None, None).
Proof.
  intros H. unfold extract_repo_info. rewrite H. reflexivity.
Qed.

(** C3 on the code: a trailing [.git] is removed, and so is every other
    occurrence of [.git] in the name: the name [octocat.github.io] comes back
    as [octocathub.io]. *)
Theorem extract_repo_info_inner_git :
  extract_repo_info "https://github.com/octocat/Hello-World.git"
  = (Some "octocat", Some "Hello-World")
  /\ extract_repo_info "https://github.com/octocat/octocat.github.io"
     = (Some "octocat", Some "octocathub.io")
  /\ extract_repo_info "git@gitlab.com:octocat/Hello-World.git" = (None, None).
Proof.
  repeat split.
Qed.

(** * Further properties of the fetchers *)

(** ** What the primitives raise *)

Lemma raises_py_ok {A : Type} (a : A) : raises_py (Ok a).
Proof. intros e H. discriminate H. Qed.

Lemma raises_py_raise {A : Type} (p : py_error) : raises_py (@Raise A (PyError p)).
Proof. intros e H. injection H as <-. eauto. Qed.

Lemma raises_py_bind {A B : Type} (c : result A) (k : A -> result B) :
  raises_py c -> (forall a, raises_py (k a)) -> raises_py (bind c k).
Proof.
  intros Hc Hk e H. destruct c as [a|e']; simpl in H.
  - exact (Hk a e H).
  - injection H as <-. apply Hc. reflexivity.
Qed.

Lemma as_number_py (operation : string) (j : json) :
  raises_py (as_number operation j).
Proof. destruct j; simpl; auto using raises_py_ok, raises_py_raise. Qed.

Lemma getitem_py (j : json) (k : string) : raises_py (getitem j k).
Proof.
  destruct j; simpl; auto using raises_py_raise.
  destruct (assoc k fields); auto using raises_py_ok, raises_py_raise.
Qed.

Lemma getitem_index_py (j : json) (i : nat) : raises_py (getitem_index j i).
Proof.
  destruct j; simpl; auto using raises_py_raise.
  - destruct (get i s); auto using raises_py_ok, raises_py_raise.
  - destruct (nth_error items i); auto using raises_py_ok, raises_py_raise.
Qed.

Lemma dict_get_py (j : json) (k : string) (d : json) : raises_py (dict_get j k d).
Proof.
  destruct j; simpl; auto using raises_py_raise.
  destruct (assoc k fields); auto using raises_py_ok.
Qed.

Lemma dict_items_py (j : json) : raises_py (dict_items j).
Proof. destruct j; simpl; auto using raises_py_ok, raises_py_raise. Qed.

Lemma py_iter_py (j : json) : raises_py (py_iter j).
Proof. destruct j; simpl; auto using raises_py_ok, raises_py_raise. Qed.

Lemma response_json_py (r : response) : raises_py (response_json r).
Proof.
  unfold response_json. destruct (json_body r); auto using raises_py_ok, raises_py_raise.
Qed.

Lemma truediv_py (a b : Z) : raises_py (truediv a b).
Proof.
  unfold truediv. destruct (b =? 0); [auto using raises_py_raise|].
  destruct (nearest _ _); auto using raises_py_ok, raises_py_raise.
Qed.

Lemma fromtimestamp_py (fmt : Z -> option string) (t : json) :
  raises_py (fromtimestamp fmt t).
Proof.
  unfold fromtimestamp. apply raises_py_bind; [apply as_number_py|].
  intros n. destruct (fmt n); auto using raises_py_ok, raises_py_raise.
Qed.

Lemma format_date_py (W : world) (j : json) : raises_py (format_date W j).
Proof.
  destruct j; simpl; auto using raises_py_raise.
  destruct (strptime_ymd W s); auto using raises_py_ok, raises_py_raise.
Qed.

Lemma sum_gen_py (f : json -> result json) (acc : Z) (l : list json) :
  (forall x, raises_py (f x)) -> raises_py (sum_gen f acc l).
Proof.
  intros Hf. revert acc. induction l as [|x l IH]; intros acc; simpl.
  - apply raises_py_ok.
  - apply raises_py_bind; [apply Hf|]. intros v.
    apply raises_py_bind; [apply as_number_py|]. intros n. apply IH.
Qed.

Lemma map_m_py {A B : Type} (f : A -> result B) (l : list A) :
  (forall x, raises_py (f x)) -> raises_py (map_m f l).
Proof.
  intros Hf. induction l as [|x l IH]; simpl.
  - apply raises_py_ok.
  - apply raises_py_bind; [apply Hf|]. intros y.
    apply raises_py_bind; [apply IH|]. intros ys. apply raises_py_ok.
Qed.

Lemma add_days_py (week : json) (days : list nat) (daily : list Z) :
  raises_py (add_days week days daily).
Proof.
  revert daily. induction days as [|day days IH]; intros daily; simpl.
  - apply raises_py_ok.
  - apply raises_py_bind; [apply getitem_py|]. intros ds.
    apply raises_py_bind; [apply getitem_index_py|]. intros d.
    apply raises_py_bind; [apply as_number_py|]. intros n. apply IH.
Qed.

Lemma add_weeks_py (rows : list json) (daily : list Z) :
  raises_py (add_weeks rows daily).
Proof.
  revert daily. induction rows as [|week rows IH]; intros daily; cbn [add_weeks].
  - apply raises_py_ok.
  - apply raises_py_bind; [apply add_days_py|]. intros d. apply IH.
Qed.

Create HintDb py_raises.

#[local] Hint Resolve raises_py_ok raises_py_raise as_number_py getitem_py
  getitem_index_py dict_get_py dict_items_py py_iter_py response_json_py truediv_py
  fromtimestamp_py format_date_py add_days_py add_weeks_py : py_raises.

(** ** The error normalizer on every status *)

(** What [handle_github_error] raises: its own error once the reset time is
    there, and otherwise what the conversion of the reset header raised. *)
Lemma handle_github_error_cases (W : world) (r : response) (e : exn) :
  handle_github_error W r = Raise e ->
  (exists message reset,
      rate_limit_reset W r = Ok reset
      /\ e = GitHubAPIError message (Some (status_code r))
                            (Some (rate_limit_remaining r)))
  \/ (rate_limit_reset W r = Raise e
      /\ ((exists s, e = PyError (ValueError "int" s))
          \/ exists t, e = PyError (TimestampError t))).
Proof.
  unfold handle_github_error. intros H.
  destruct (rate_limit_reset W r) as [reset|e'] eqn:Hreset; simpl in H.
  - left.
    destruct (status_code r =? 404) eqn:H404;
      [apply Z.eqb_eq in H404|
       destruct (status_code r =? 403) eqn:H403;
       [apply Z.eqb_eq in H403|
        destruct (status_code r =? 401) eqn:H401;
        [apply Z.eqb_eq in H401|
         destruct (status_code r =? 429) eqn:H429;
         [apply Z.eqb_eq in H429|]]]];
      injection H as <-; eexists _, reset; (split; [reflexivity|]);
      try match goal with Hs : status_code r = _ |- _ => rewrite Hs end;
      reflexivity.
  - right. injection H as <-. split; [reflexivity|].
    unfold rate_limit_reset in Hreset.
    destruct (headers_get (headers r) "X-RateLimit-Reset") as [s|]; [|discriminate Hreset].
    destruct (s =? "")%string; [discriminate Hreset|].
    destruct (py_int W s) as [t|]; [|injection Hreset as <-; eauto].
    destruct (strftime_hms W t); [discriminate Hreset|injection Hreset as <-; eauto].
Qed.

(** X1: whatever the status, a [GitHubAPIError] raised by
    [handle_github_error] carries the status code of the response and, as
    remaining calls, the [X-RateLimit-Remaining] header or ["Unknown"]. *)
Theorem handle_github_error_keeps_status
    (W : world) (r : response) (message : string) (status : option Z)
    (remaining : option string) :
  handle_github_error W r = Raise (GitHubAPIError message status remaining) ->
  status = Some (status_code r)
  /\ remaining = Some (rate_limit_remaining r)
  /\ exists reset, rate_limit_reset W r = Ok reset.
Proof.
  intros H.
  destruct (handle_github_error_cases W r _ H)
    as [(m & reset & Hreset & Heq) | (_ & [[s Heq] | [t Heq]])];
    try discriminate Heq.
  injection Heq as _ -> ->. eauto.
Qed.

(** A status outside the table, with the header in lower case. *)
Lemma handle_github_error_keeps_status_witness :
  handle_github_error (Utc.world_of (fun _ => TimedOut)) teapot_response
  = Raise (GitHubAPIError "GitHub API error: 418 - short and stout" (Some 418) (Some "7"))
  /\ Some 418 = Some (status_code teapot_response).
Proof.
  split; [reflexivity|].
  apply (handle_github_error_keeps_status (Utc.world_of (fun _ => TimedOut))
           teapot_response "GitHub API error: 418 - short and stout"
           (Some 418) (Some "7")).
  reflexivity.
Defined.

(** X2: the reset header is converted before the status is looked at. When
    it is no number, [handle_github_error] raises the [ValueError] of [int] on
    the header's text instead of its own error, and [fetch_repo_data] reports
    an unexpected error without status, whose message ends with the text of
    that [ValueError], whatever the status of the response was. *)
Theorem garbled_reset_masks_status
    (W : world) (owner repo : string) (r : response) (s : string) :
  http_get W (repo_url owner repo) = Responded r ->
  status_code r <> 200 ->
  headers_get (headers r) "X-RateLimit-Reset" = Some s ->
  s <> "" ->
  py_int W s = None ->
  handle_github_error W r = Raise (PyError (ValueError "int" s))
  /\ fetch_repo_data W owner repo
     = Raise (GitHubAPIError
                ("Unexpected error: " ++ exc_text W (PyError (ValueError "int" s)))
                None None).
Proof.
  intros Hget Hstatus Hs Hne Hint.
  assert (E : handle_github_error W r = Raise (PyError (ValueError "int" s))).
  { unfold handle_github_error, rate_limit_reset. rewrite Hs.
    apply String.eqb_neq in Hne. rewrite Hne, Hint. reflexivity. }
  split; [exact E|].
  unfold fetch_repo_data. rewrite Hget. cbn [requests_get_result bind].
  apply Z.eqb_neq in Hstatus. rewrite Hstatus. cbn [negb]. rewrite E. reflexivity.
Qed.

(** A 404 response whose reset header reads [soon]. *)
Lemma garbled_reset_masks_status_witness :
  fetch_repo_data (Utc.world_of (fun _ => Responded garbled_reset_response))
    "octocat" "Hello-World"
  = Raise (GitHubAPIError
             "Unexpected error: invalid literal for int() with base 10: 'soon'"
             None None).
Proof.
  apply (garbled_reset_masks_status
           (Utc.world_of (fun _ => Responded garbled_reset_response))
           "octocat" "Hello-World" garbled_reset_response "soon");
    try reflexivity; discriminate.
Defined.

(** ** What the fetchers raise *)

(** X3: [fetch_repo_data] raises nothing but [GitHubAPIError]; when the error
    has a status code, a response arrived, the code is its status, which is
    not 200, and the remaining calls are those of its header. *)
Theorem fetch_repo_data_errors (W : world) (owner repo : string) (e : exn) :
  fetch_repo_data W owner repo = Raise e ->
  exists message status remaining,
    e = GitHubAPIError message status remaining
    /\ forall s, status = Some s ->
         exists r, http_get W (repo_url owner repo) = Responded r
                   /\ status_code r = s
                   /\ s <> 200
                   /\ remaining = Some (rate_limit_remaining r).
Proof.
  unfold fetch_repo_data. intros H.
  destruct (http_get W (repo_url owner repo)) as [r| | |] eqn:Hget;
    cbn [requests_get_result bind try_except] in H.
  2-4: injection H as <-; eexists _, _, _;
       (split; [reflexivity | intros s Hs; discriminate Hs]).
  destruct (status_code r =? 200) eqn:Hstatus; cbn [negb] in H.
  - match type of H with
    | try_except ?c _ = _ => assert (Hpy : raises_py c); [|destruct c as [a|e']]
    end.
    + repeat (apply raises_py_bind; [auto with py_raises | intros ?]).
      auto with py_raises.
    + discriminate H.
    + destruct (Hpy e' eq_refl) as [p ->]. cbn [try_except] in H.
      injection H as <-. eexists _, _, _.
      split; [reflexivity | intros s Hs; discriminate Hs].
  - destruct (handle_github_error_raises W r) as [e' He'].
    rewrite He' in H. cbn [bind try_except] in H.
    destruct (handle_github_error_cases W r e' He')
      as [(m & reset & _ & ->) | (_ & [[s' ->] | [t' ->]])];
      injection H as <-; eexists _, _, _;
      (split; [reflexivity | intros s Hs]); try discriminate Hs.
    injection Hs as <-. exists r.
    apply Z.eqb_neq in Hstatus. auto.
Qed.

(** The not-found response: the error has the status 404 of the response. *)
Lemma fetch_repo_data_errors_witness :
  let W := Utc.world_of (fun _ => Responded not_found_response) in
  let e := GitHubAPIError "Repository not found. Please check the URL."
                          (Some 404) (Some "59") in
  fetch_repo_data W "octocat" "Hello-World" = Raise e
  /\ exists message status remaining,
       e = GitHubAPIError message status remaining
       /\ forall s, status = Some s ->
            exists r, http_get W (repo_url "octocat" "Hello-World") = Responded r
                      /\ status_code r = s
                      /\ s <> 200
                      /\ remaining = Some (rate_limit_remaining r).
Proof.
  intros W e. split; [reflexivity|].
  apply (fetch_repo_data_errors W "octocat" "Hello-World" e). reflexivity.
Defined.

Lemma dict_values_py (j : json) : raises_py (dict_values j).
Proof. destruct j; simpl; auto using raises_py_ok, raises_py_raise. Qed.

(** What a failed language fetch raises, by how the request ended. *)
Lemma fetch_language_stats_raise_cases (W : world) (owner repo : string) (e : exn) :
  fetch_language_stats W owner repo = Raise e ->
  (e = Timeout /\ http_get W (languages_url owner repo) = TimedOut)
  \/ (e = ConnectionError /\ http_get W (languages_url owner repo) = ConnectionFailed)
  \/ exists message status remaining,
       e = GitHubAPIError message status remaining
       /\ forall s, status = Some s ->
            exists r, http_get W (languages_url owner repo) = Responded r
                      /\ status_code r = s
                      /\ s <> 200
                      /\ remaining = Some (rate_limit_remaining r).
Proof.
  unfold fetch_language_stats. intros H.
  destruct (http_get W (languages_url owner repo)) as [r| | |reason] eqn:Hget;
    cbn [requests_get_result bind try_except] in H.
  2: injection H as <-; left; split; reflexivity.
  2: injection H as <-; right; left; split; reflexivity.
  2: injection H as <-; right; right; eexists _, _, _;
     (split; [reflexivity | intros s Hs; discriminate Hs]).
  right; right.
  destruct (status_code r =? 200) eqn:Hstatus; cbn [negb] in H.
  - match type of H with
    | try_except ?c _ = _ => assert (Hpy : raises_py c); [|destruct c as [a|e']]
    end.
    + apply raises_py_bind; [auto with py_raises | intros ?].
      apply raises_py_bind; [auto with py_raises | intros languages].
      destruct (negb (truthy languages)); [auto with py_raises|].
      apply raises_py_bind; [apply dict_values_py | intros values].
      apply raises_py_bind;
        [unfold py_sum; apply sum_gen_py; auto with py_raises | intros total].
      apply raises_py_bind; [auto with py_raises | intros items].
      apply raises_py_bind; [|intros; auto with py_raises].
      apply map_m_py. intros item.
      repeat (apply raises_py_bind; [auto with py_raises | intros ?]).
      auto with py_raises.
    + discriminate H.
    + destruct (Hpy e' eq_refl) as [p ->]. cbn [try_except] in H.
      injection H as <-. eexists _, _, _.
      split; [reflexivity | intros s Hs; discriminate Hs].
  - destruct (handle_github_error_raises W r) as [e' He'].
    rewrite He' in H. cbn [bind try_except] in H.
    destruct (handle_github_error_cases W r e' He')
      as [(m & reset & _ & ->) | (_ & [[s' ->] | [t' ->]])];
      injection H as <-; eexists _, _, _;
      (split; [reflexivity | intros s Hs]); try discriminate Hs.
    injection Hs as <-. exists r.
    apply Z.eqb_neq in Hstatus. auto.
Qed.

(** X4: [fetch_language_stats] raises the transport's timeout exactly when
    the request timed out and the transport's connection error exactly when
    the connection failed, both as they are; every other exception it raises
    is a [GitHubAPIError], and one with a status code carries the status of
    the response, which is not 200. *)
Theorem fetch_language_stats_errors (W : world) (owner repo : string) :
  (fetch_language_stats W owner repo = Raise Timeout
   <-> http_get W (languages_url owner repo) = TimedOut)
  /\ (fetch_language_stats W owner repo = Raise ConnectionError
      <-> http_get W (languages_url owner repo) = ConnectionFailed)
  /\ forall e,
       fetch_language_stats W owner repo = Raise e ->
       e = Timeout \/ e = ConnectionError
       \/ exists message status remaining,
            e = GitHubAPIError message status remaining
            /\ forall s, status = Some s ->
                 exists r, http_get W (languages_url owner repo) = Responded r
                           /\ status_code r = s
                           /\ s <> 200
                           /\ remaining = Some (rate_limit_remaining r).
Proof.
  split; [|split].
  - split.
    + intros H.
      destruct (fetch_language_stats_raise_cases W owner repo Timeout H)
        as [[_ Hget] | [[Heq _] | (m & sc & rc & Heq & _)]];
        [exact Hget | discriminate Heq | discriminate Heq].
    + intros Hget. unfold fetch_language_stats. rewrite Hget. reflexivity.
  - split.
    + intros H.
      destruct (fetch_language_stats_raise_cases W owner repo ConnectionError H)
        as [[Heq _] | [[_ Hget] | (m & sc & rc & Heq & _)]];
        [discriminate Heq | exact Hget | discriminate Heq].
    + intros Hget. unfold fetch_language_stats. rewrite Hget. reflexivity.
  - intros e H.
    destruct (fetch_language_stats_raise_cases W owner repo e H)
      as [[Heq _] | [[Heq _] | Hrest]]; auto.
Qed.

(** A connection failure comes out as the transport raised it, and a
    rate-limited response as the normalizer's error. *)
Example fetch_language_stats_errors_examples :
  fetch_language_stats (Utc.world_of (fun _ => ConnectionFailed))
    "octocat" "Hello-World" = Raise ConnectionError
  /\ fetch_language_stats (Utc.world_of (fun _ => Responded rate_limited_response))
       "octocat" "Hello-World"
     = Raise (GitHubAPIError
                "Rate limit exceeded. Resets at 22:13:20. Remaining calls: 0"
                (Some 403) (Some "0")).
Proof. split; reflexivity. Qed.

(** X5: [fetch_commit_activity] raises nothing but [GitHubAPIError], and
    never one with a status code or remaining calls: the errors of the
    normalizer are caught and wrapped like every other exception. *)
Theorem fetch_commit_activity_errors (W : world) (owner repo : string) (e : exn) :
  fetch_commit_activity W owner repo = Raise e ->
  exists message, e = GitHubAPIError message None None.
Proof.
  unfold fetch_commit_activity, try_except. intros H.
  match type of H with
  | match ?c with _ => _ end = _ => destruct c as [a|e']
  end; [discriminate H|].
  destruct e'; injection H as <-; eauto.
Qed.

(** A rate-limited response: the status 403 is gone. *)
Lemma fetch_commit_activity_errors_witness :
  let W := Utc.world_of (fun _ => Responded rate_limited_response) in
  fetch_commit_activity W "octocat" "Hello-World"
  = Raise (GitHubAPIError
             "Error fetching commit activity: Rate limit exceeded. Resets at 22:13:20. Remaining calls: 0"
             None None)
  /\ exists message,
       GitHubAPIError
         "Error fetching commit activity: Rate limit exceeded. Resets at 22:13:20. Remaining calls: 0"
         None None
       = GitHubAPIError message None None.
Proof.
  intros W. split; [reflexivity|].
  apply (fetch_commit_activity_errors W "octocat" "Hello-World"). reflexivity.
Defined.

(** ** When the fetchers return *)

Lemma bind_ok {A B : Type} (c : result A) (k : A -> result B) (v : B) :
  bind c k = Ok v -> exists a, c = Ok a /\ k a = Ok v.
Proof.
  destruct c as [a|e]; simpl; intros H; [eauto | discriminate H].
Qed.

Ltac inv_bind H :=
  let a := fresh "a" in
  let E := fresh "E" in
  apply bind_ok in H; destruct H as (a & E & H); cbv beta in H.

Tactic Notation "unbind" hyp(H) "as" ident(a) ident(E) :=
  apply bind_ok in H; destruct H as (a & E & H); cbv beta in H.

Lemma getitem_ok (j : json) (k : string) (v : json) :
  getitem j k = Ok v -> exists fields, j = JObj fields /\ assoc k fields = Some v.
Proof.
  destruct j; simpl; intros H; try discriminate H.
  destruct (assoc k fields) eqn:E; [|discriminate H].
  injection H as <-. eauto.
Qed.

Lemma format_date_ok (W : world) (j : json) (d : string) :
  format_date W j = Ok d -> exists s, j = JStr s /\ strptime_ymd W s = Some d.
Proof.
  destruct j; simpl; intros H; try discriminate H.
  destruct (strptime_ymd W s) eqn:E; [|discriminate H].
  injection H as <-. eauto.
Qed.

Lemma status_checked (W : world) (r : response) (u : unit) :
  (if negb (status_code r =? 200) then handle_github_error W r else Ok tt) = Ok u ->
  status_code r = 200.
Proof.
  destruct (status_code r =? 200) eqn:E; simpl; intros H.
  - apply Z.eqb_eq. exact E.
  - destruct (handle_github_error_raises W r) as [e He]. congruence.
Qed.

Lemma requests_get_ok (o : outcome) (r : response) :
  requests_get_result o = Ok r -> o = Responded r.
Proof. destruct o; simpl; congruence. Qed.

Lemma response_json_ok (r : response) (j : json) :
  response_json r = Ok j -> json_body r = Some j.
Proof.
  unfold response_json. destruct (json_body r); congruence.
Qed.

(** X6: [fetch_repo_data] returns a summary only for a response of status
    200 whose payload is an object that holds [name], the three counts and the
    two timestamps, both strings in the format of the API; the summary has the
    payload's values, the two dates reformatted, and the defaults for an
    absent [description] or [language]. A missing key or a timestamp in
    another shape is an error, not a default. *)
Theorem fetch_repo_data_returns (W : world) (owner repo : string) (info : repo_info) :
  fetch_repo_data W owner repo = Ok info ->
  exists r fields created updated,
    http_get W (repo_url owner repo) = Responded r
    /\ status_code r = 200
    /\ json_body r = Some (JObj fields)
    /\ assoc "name" fields = Some (ri_name info)
    /\ assoc "stargazers_count" fields = Some (ri_stargazers_count info)
    /\ assoc "forks_count" fields = Some (ri_forks_count info)
    /\ assoc "watchers_count" fields = Some (ri_watchers_count info)
    /\ assoc "created_at" fields = Some (JStr created)
    /\ strptime_ymd W created = Some (ri_created_at info)
    /\ assoc "updated_at" fields = Some (JStr updated)
    /\ strptime_ymd W updated = Some (ri_updated_at info)
    /\ ri_description info
       = match assoc "description" fields with
         | Some v => v
         | None => JStr "No description available"
         end
    /\ ri_language info
       = match assoc "language" fields with
         | Some v => v
         | None => JStr "Not specified"
         end.
Proof.
  unfold fetch_repo_data, try_except. intros H.
  match type of H with
  | match ?c with _ => _ end = _ => destruct c as [a|e] eqn:Hbody
  end; [injection H as ->|destruct e; discriminate H].
  rename Hbody into H.
  inv_bind H. apply requests_get_ok in E.
  inv_bind H. apply status_checked in E0.
  inv_bind H. apply response_json_ok in E1.
  inv_bind H. destruct (getitem_ok _ _ _ E2) as (fields & -> & Hname).
  inv_bind H. inv_bind H. inv_bind H. inv_bind H. inv_bind H. inv_bind H.
  inv_bind H. inv_bind H. inv_bind H.
  simpl in E3, E4, E5, E6, E7, E8, E10.
  destruct (assoc "stargazers_count" fields) eqn:Hstars; [|discriminate E4].
  destruct (assoc "forks_count" fields) eqn:Hforks; [|discriminate E5].
  destruct (assoc "watchers_count" fields) eqn:Hwatch; [|discriminate E6].
  destruct (assoc "created_at" fields) eqn:Hc; [|discriminate E8].
  destruct (assoc "updated_at" fields) eqn:Hu; [|discriminate E10].
  injection E4 as <-. injection E5 as <-. injection E6 as <-.
  injection E8 as <-. injection E10 as <-.
  destruct (format_date_ok _ _ _ E9) as (created & -> & Hcd).
  destruct (format_date_ok _ _ _ E11) as (updated & -> & Hud).
  injection H as <-. simpl.
  exists a, fields, created, updated.
  repeat split; try assumption.
  - destruct (assoc "description" fields); injection E3 as <-; reflexivity.
  - destruct (assoc "language" fields); injection E7 as <-; reflexivity.
Qed.

(** The summary of a payload without [description]. *)
Lemma fetch_repo_data_returns_witness :
  let payload :=
    JObj [("name", JStr "Hello-World"); ("stargazers_count", JInt 80);
          ("forks_count", JInt 9); ("watchers_count", JInt 80);
          ("language", JNull);
          ("created_at", JStr "2011-01-26T19:01:12Z");
          ("updated_at", JStr "2011-01-26T19:14:43Z")] in
  let W := Utc.world_of (fun _ => Responded (ok_response payload)) in
  exists r fields,
    http_get W (repo_url "octocat" "Hello-World") = Responded r
    /\ status_code r = 200
    /\ json_body r = Some (JObj fields)
    /\ assoc "name" fields = Some (JStr "Hello-World").
Proof.
  intros payload W.
  destruct (fetch_repo_data_returns W "octocat" "Hello-World"
              {| ri_name := JStr "Hello-World";
                 ri_description := JStr "No description available";
                 ri_stargazers_count := JInt 80;
                 ri_forks_count := JInt 9;
                 ri_watchers_count := JInt 80;
                 ri_language := JNull;
                 ri_created_at := "2011-01-26";
                 ri_updated_at := "2011-01-26" |} eq_refl)
    as (r & fields & created & updated & H1 & H2 & H3 & H4 & _).
  exists r, fields. repeat split; assumption.
Defined.

Lemma map_m_length {A B : Type} (f : A -> result B) (l : list A) (ys : list B) :
  map_m f l = Ok ys -> List.length ys = List.length l.
Proof.
  revert ys. induction l as [|x l IH]; intros ys H; simpl in H.
  - injection H as <-. reflexivity.
  - inv_bind H. inv_bind H. injection H as <-. simpl. f_equal. apply IH. exact E0.
Qed.

(** What the loop over the items lists: for every item its key and the float
    [(count / total) * 100]. *)
Lemma percentages_listed (total : Z) (fields : list (string * json))
    (stats : list (string * float)) :
  map_m (fun item : string * json =>
           count <- as_number "/" (snd item) ;;
           q <- truediv count total ;;
           Ok (fst item, float_mul q hundred))
        fields = Ok stats ->
  map fst stats = map fst fields
  /\ Forall2 (fun (s : string * float) (f : string * json) =>
                fst s = fst f
                /\ exists count q,
                     as_number "/" (snd f) = Ok count
                     /\ truediv count total = Ok q
                     /\ snd s = float_mul q hundred)
             stats fields.
Proof.
  revert stats. induction fields as [|item fields IH]; intros stats H; simpl in H.
  - injection H as <-. split; [reflexivity | constructor].
  - unbind H as stat Hitem. unbind H as rest Hrest. injection H as <-.
    unbind Hitem as count Hcount. unbind Hitem as q Hq. injection Hitem as <-.
    destruct (IH rest Hrest) as [Hkeys Hall].
    split; [simpl; f_equal; exact Hkeys|].
    constructor; [|exact Hall].
    split; [reflexivity|]. exists count, q. auto.
Qed.

(** X7: whenever [fetch_language_stats] returns a mapping, the response had
    status 200 and its payload was a non-empty object whose values sum to a
    total that is not zero; the mapping has the keys of the payload in their
    order, each with the float [(count / total) * 100] of its value. *)
Theorem fetch_language_stats_returns
    (W : world) (owner repo : string) (stats : list (string * float)) :
  fetch_language_stats W owner repo = Ok (Some stats) ->
  exists r fields total,
    http_get W (languages_url owner repo) = Responded r
    /\ status_code r = 200
    /\ json_body r = Some (JObj fields)
    /\ fields <> []
    /\ py_sum (map snd fields) = Ok total
    /\ total <> 0
    /\ map fst stats = map fst fields
    /\ Forall2 (fun (s : string * float) (f : string * json) =>
                  fst s = fst f
                  /\ exists count q,
                       as_number "/" (snd f) = Ok count
                       /\ truediv count total = Ok q
                       /\ snd s = float_mul q hundred)
               stats fields.
Proof.
  unfold fetch_language_stats, try_except. intros H.
  match type of H with
  | match ?c with _ => _ end = _ => destruct c as [a|e] eqn:Hbody
  end; [injection H as ->|destruct e; discriminate H].
  rename Hbody into H.
  unbind H as r Hget. apply requests_get_ok in Hget.
  unbind H as u Hstatus. apply status_checked in Hstatus.
  unbind H as languages Hjson. apply response_json_ok in Hjson.
  destruct (negb (truthy languages)) eqn:Htruthy; [discriminate H|].
  unbind H as values Hvalues. unbind H as total Hsum.
  unbind H as items Hitems. unbind H as stats' Hmap. injection H as <-.
  destruct languages as [| | | | |fields]; try discriminate Hitems.
  injection Hitems as <-. injection Hvalues as <-.
  assert (Hne : fields <> []).
  { intros ->. discriminate Htruthy. }
  assert (Htotal : total <> 0).
  { destruct fields as [|item fields]; [contradiction|].
    simpl in Hmap. unbind Hmap as stat Hitem. unbind Hitem as n Hn.
    unbind Hitem as q Hdiv.
    unfold truediv in Hdiv. intros ->. discriminate Hdiv. }
  destruct (percentages_listed total fields stats' Hmap) as [Hkeys Hall].
  exists r, fields, total. repeat split; assumption.
Qed.

(** A payload with a boolean among its counts: [true] counts as one byte,
    a quarter of the total. *)
Lemma fetch_language_stats_returns_witness :
  let payload := JObj [("Python", JInt 3); ("Makefile", JBool true)] in
  let W := Utc.world_of (fun _ => Responded (ok_response payload)) in
  let stats := [("Python", Finite false 5277655813324800 (-46));
                ("Makefile", Finite false 7036874417766400 (-48))] in
  fetch_language_stats W "octocat" "Hello-World" = Ok (Some stats)
  /\ map (fun s : string * float => Qred (value (snd s))) stats
     = [(75 # 1)%Q; (25 # 1)%Q]
  /\ exists r fields total,
       http_get W (languages_url "octocat" "Hello-World") = Responded r
       /\ json_body r = Some (JObj fields)
       /\ py_sum (map snd fields) = Ok total
       /\ total <> 0.
Proof.
  intros payload W stats.
  split; [vm_compute; reflexivity|]. split; [vm_compute; reflexivity|].
  destruct (fetch_language_stats_returns W "octocat" "Hello-World" stats)
    as (r & fields & total & H1 & _ & H3 & _ & H5 & H6 & _);
    [vm_compute; reflexivity|].
  exists r, fields, total. auto.
Defined.

(** X8: [fetch_language_stats] returns [None] exactly for a response of
    status 200 whose JSON body is falsy: the empty object, and as well the
    empty list, the empty string, [null], [false] and zero. *)
Theorem fetch_language_stats_none (W : world) (owner repo : string) :
  fetch_language_stats W owner repo = Ok None
  <-> exists r j,
        http_get W (languages_url owner repo) = Responded r
        /\ status_code r = 200
        /\ json_body r = Some j
        /\ truthy j = false.
Proof.
  split.
  - unfold fetch_language_stats, try_except. intros H.
    match type of H with
    | match ?c with _ => _ end = _ => destruct c as [a|e] eqn:Hbody
    end; [injection H as ->|destruct e; discriminate H].
    rename Hbody into H.
    unbind H as r Hget. apply requests_get_ok in Hget.
    unbind H as u Hstatus. apply status_checked in Hstatus.
    unbind H as languages Hjson. apply response_json_ok in Hjson.
    destruct (truthy languages) eqn:Htruthy; cbn [negb] in H.
    + unbind H as values Hvalues. unbind H as total Hsum.
      unbind H as items Hitems. unbind H as stats Hmap. discriminate H.
    + exists r, languages. auto.
  - intros (r & j & Hget & Hstatus & Hbody & Htruthy).
    unfold fetch_language_stats, response_json.
    rewrite Hget. cbn [requests_get_result bind]. rewrite Hstatus, Hbody.
    change (200 =? 200) with true. cbn [negb bind]. rewrite Htruthy. reflexivity.
Qed.

(** The empty list and [null] in place of the mapping. *)
Example fetch_language_stats_none_falsy :
  fetch_language_stats (Utc.world_of (fun _ => Responded (ok_response (JArr []))))
    "octocat" "Hello-World" = Ok None
  /\ fetch_language_stats (Utc.world_of (fun _ => Responded (ok_response JNull)))
       "octocat" "Hello-World" = Ok None.
Proof. split; reflexivity. Qed.

(** ** Commit activity: the three outcomes *)

(** X9: [fetch_commit_activity] returns the computing state exactly for a
    response of status 202, always with the same message, and returns [None]
    exactly for a response of status 200 whose JSON body is falsy (the empty
    list, and as well [null], the empty object, zero). *)
Theorem fetch_commit_activity_outcomes (W : world) (owner repo : string) :
  (forall message,
      fetch_commit_activity W owner repo = Ok (Some (Computing message))
      <-> message = computing_message
          /\ exists r, http_get W (commit_activity_url owner repo) = Responded r
                       /\ status_code r = 202)
  /\ (fetch_commit_activity W owner repo = Ok None
      <-> exists r j, http_get W (commit_activity_url owner repo) = Responded r
                      /\ status_code r = 200
                      /\ json_body r = Some j
                      /\ truthy j = false).
Proof.
  split; [intros message|]; split.
  - unfold fetch_commit_activity, try_except. intros H.
    match type of H with
    | match ?c with _ => _ end = _ => destruct c as [a|e] eqn:Hbody
    end; [injection H as ->|destruct e; discriminate H].
    rename Hbody into H.
    unbind H as r Hget. apply requests_get_ok in Hget.
    destruct (status_code r =? 202) eqn:H202.
    + injection H as <-. apply Z.eqb_eq in H202. eauto.
    + unbind H as u Hstatus. unbind H as data Hjson.
      destruct (negb (truthy data)); [discriminate H|].
      unbind H as rows Hrows. unbind H as total Hsum. unbind H as weeks Hweeks.
      unbind H as commits Hcommits. unbind H as daily Hdaily. discriminate H.
  - intros (-> & r & Hget & Hstatus).
    unfold fetch_commit_activity. rewrite Hget. cbn [requests_get_result bind].
    rewrite Hstatus. reflexivity.
  - unfold fetch_commit_activity, try_except. intros H.
    match type of H with
    | match ?c with _ => _ end = _ => destruct c as [a|e] eqn:Hbody
    end; [injection H as ->|destruct e; discriminate H].
    rename Hbody into H.
    unbind H as r Hget. apply requests_get_ok in Hget.
    destruct (status_code r =? 202) eqn:H202; [discriminate H|].
    unbind H as u Hstatus. apply status_checked in Hstatus.
    unbind H as data Hjson. apply response_json_ok in Hjson.
    destruct (truthy data) eqn:Htruthy; cbn [negb] in H.
    + unbind H as rows Hrows. unbind H as total Hsum. unbind H as weeks Hweeks.
      unbind H as commits Hcommits. unbind H as daily Hdaily. discriminate H.
    + exists r, data. auto.
  - intros (r & j & Hget & Hstatus & Hbody & Htruthy).
    unfold fetch_commit_activity, response_json.
    rewrite Hget. cbn [requests_get_result bind]. rewrite Hstatus, Hbody.
    change (200 =? 202) with false. change (200 =? 200) with true.
    cbn [negb bind]. rewrite Htruthy. reflexivity.
Qed.

(** ** Commit activity: what every ready result satisfies *)

Lemma add_at_length (l : list Z) (i : nat) (n : Z) :
  List.length (add_at l i n) = List.length l.
Proof.
  revert i. induction l as [|x l IH]; intros [|i]; simpl; try reflexivity.
  f_equal. apply IH.
Qed.

Lemma add_days_length (week : json) (days : list nat) (daily daily' : list Z) :
  add_days week days daily = Ok daily' -> List.length daily' = List.length daily.
Proof.
  revert daily. induction days as [|day days IH]; intros daily H; simpl in H.
  - injection H as <-. reflexivity.
  - unbind H as ds Hds. unbind H as d Hd. unbind H as n Hn.
    rewrite (IH _ H). apply add_at_length.
Qed.

Lemma add_weeks_length (rows : list json) (daily daily' : list Z) :
  add_weeks rows daily = Ok daily' -> List.length daily' = List.length daily.
Proof.
  revert daily. induction rows as [|week rows IH]; intros daily H; cbn [add_weeks] in H.
  - injection H as <-. reflexivity.
  - unbind H as d Hd. rewrite (IH _ H). exact (add_days_length _ _ _ _ Hd).
Qed.

(** The list of the weekly totals sums to what the generator summed. *)
Lemma sum_gen_listed (f : json -> result json) (rows commits : list json) (acc t : Z) :
  sum_gen f acc rows = Ok t ->
  map_m f rows = Ok commits ->
  sum_gen (fun x => Ok x) acc commits = Ok t.
Proof.
  revert acc commits. induction rows as [|row rows IH]; intros acc commits Hsum Hmap;
    simpl in Hsum, Hmap.
  - injection Hmap as <-. exact Hsum.
  - unbind Hsum as v Hv. unbind Hsum as n Hn.
    unbind Hmap as v' Hv'. unbind Hmap as rest Hrest. injection Hmap as <-.
    rewrite Hv in Hv'. injection Hv' as <-.
    simpl. rewrite Hn. simpl. exact (IH _ _ Hsum Hrest).
Qed.

(** X10: every ready result of [fetch_commit_activity], whatever the payload
    was, has seven daily slots, as many week dates as weekly counts, and a
    total that is the sum of the weekly counts it lists; it comes from a
    response of status 200. *)
Theorem fetch_commit_activity_ready
    (W : world) (owner repo : string) (total : Z) (weeks : list string)
    (commits : list json) (daily : list Z) :
  fetch_commit_activity W owner repo = Ok (Some (Ready total weeks commits daily)) ->
  List.length daily = 7%nat
  /\ List.length weeks = List.length commits
  /\ py_sum commits = Ok total
  /\ exists r, http_get W (commit_activity_url owner repo) = Responded r
               /\ status_code r = 200.
Proof.
  unfold fetch_commit_activity, try_except. intros H.
  match type of H with
  | match ?c with _ => _ end = _ => destruct c as [a|e] eqn:Hbody
  end; [injection H as ->|destruct e; discriminate H].
  rename Hbody into H.
  unbind H as r Hget. apply requests_get_ok in Hget.
  destruct (status_code r =? 202) eqn:H202; [discriminate H|].
  unbind H as u Hstatus. apply status_checked in Hstatus.
  unbind H as data Hjson.
  destruct (negb (truthy data)); [discriminate H|].
  unbind H as rows Hrows. unbind H as total' Hsum. unbind H as weeks' Hweeks.
  unbind H as commits' Hcommits. unbind H as daily' Hdaily.
  injection H as <- <- <- <-.
  repeat split.
  - rewrite (add_weeks_length _ _ _ Hdaily). reflexivity.
  - rewrite (map_m_length _ _ _ Hweeks), (map_m_length _ _ _ Hcommits). reflexivity.
  - exact (sum_gen_listed _ _ _ _ _ Hsum Hcommits).
  - eauto.
Qed.

(** A payload whose [total] fields are booleans and disagree with [days]:
    the total is still the sum of the listed counts. *)
Lemma fetch_commit_activity_ready_witness :
  let payload :=
    JArr [JObj [("week", JInt 0); ("total", JBool true);
                ("days", JArr (map JInt [0; 0; 2; 0; 0; 0; 0; 9]))];
          JObj [("week", JInt 604800); ("total", JBool true);
                ("days", JArr (map JInt [1; 0; 0; 0; 0; 0; 0]))]] in
  let W := Utc.world_of (fun _ => Responded (ok_response payload)) in
  fetch_commit_activity W "octocat" "Hello-World"
  = Ok (Some (Ready 2 ["1970-01-01"; "1970-01-08"] [JBool true; JBool true]
                [1; 0; 2; 0; 0; 0; 0]))
  /\ py_sum [JBool true; JBool true] = Ok 2.
Proof.
  intros payload W. split; [reflexivity|].
  apply (fetch_commit_activity_ready W "octocat" "Hello-World" 2
           ["1970-01-01"; "1970-01-08"] [JBool true; JBool true]
           [1; 0; 2; 0; 0; 0; 0]).
  reflexivity.
Defined.

(** ** Commit activity: a week without its days *)

Lemma add_weeks_missing_days (rows : list json) (fields : list (string * json))
    (daily : list Z) :
  In (JObj fields) rows ->
  assoc "days" fields = None ->
  exists e, add_weeks rows daily = Raise e.
Proof.
  intros Hin Hdays. revert daily.
  induction rows as [|week rows IH]; intros daily; [contradiction|].
  cbn [add_weeks].
  destruct (add_days week (seq 0 7) daily) as [d|e] eqn:Hd; [|simpl; eauto].
  destruct Hin as [-> | Hin].
  - simpl in Hd. rewrite Hdays in Hd. discriminate Hd.
  - simpl. apply IH. exact Hin.
Qed.

(** X11: when a week record of the payload has no [days] entry,
    [fetch_commit_activity] returns no result at all, however good the other
    weeks are: it raises a [GitHubAPIError] without status. *)
Theorem fetch_commit_activity_missing_days
    (W : world) (owner repo : string) (r : response) (rows : list json)
    (fields : list (string * json)) :
  http_get W (commit_activity_url owner repo) = Responded r ->
  status_code r = 200 ->
  json_body r = Some (JArr rows) ->
  In (JObj fields) rows ->
  assoc "days" fields = None ->
  exists message,
    fetch_commit_activity W owner repo = Raise (GitHubAPIError message None None).
Proof.
  intros Hget Hstatus Hbody Hin Hdays.
  unfold fetch_commit_activity, response_json.
  rewrite Hget. cbn [requests_get_result bind]. rewrite Hstatus, Hbody.
  change (200 =? 202) with false. change (200 =? 200) with true.
  cbn [negb bind].
  destruct rows as [|row rows]; [contradiction|].
  cbn [truthy negb py_iter bind].
  destruct (add_weeks_missing_days (row :: rows) fields (repeat 0 7) Hin Hdays)
    as [e He].
  assert (Hraise : exists e',
             (total_commits <- sum_gen (fun week => getitem week "total") 0 (row :: rows) ;;
              weeks <- map_m (fun week =>
                                t <- getitem week "week" ;;
                                fromtimestamp (strftime_ymd W) t)
                             (row :: rows) ;;
              commits <- map_m (fun week => getitem week "total") (row :: rows) ;;
              daily_commits <- add_weeks (row :: rows) (repeat 0 7) ;;
              Ok (Some (Ready total_commits weeks commits daily_commits)))
             = Raise e').
  { destruct (sum_gen _ 0 (row :: rows)); [|simpl; eauto].
    cbn [bind].
    destruct (map_m (fun week => t <- getitem week "week" ;; _) (row :: rows));
      [|simpl; eauto].
    cbn [bind].
    destruct (map_m (fun week => getitem week "total") (row :: rows)); [|simpl; eauto].
    cbn [bind]. rewrite He. simpl. eauto. }
  destruct Hraise as [e' He']. rewrite He'. unfold try_except.
  destruct e'; eauto.
Qed.

(** One good week and one without days. *)
Lemma fetch_commit_activity_missing_days_witness :
  let rows := [week_record 0 5 [1; 0; 0; 0; 0; 0; 4]; week_without_days 604800 3] in
  let W := Utc.world_of (fun _ => Responded (ok_response (JArr rows))) in
  exists message,
    fetch_commit_activity W "octocat" "Hello-World"
    = Raise (GitHubAPIError message None None).
Proof.
  intros rows W.
  apply (fetch_commit_activity_missing_days W "octocat" "Hello-World"
           (ok_response (JArr rows)) rows [("total", JInt 3); ("week", JInt 604800)]);
    try reflexivity.
  right. left. reflexivity.
Defined.

(** * Further properties of the identifier extractor *)

Lemma span_segment_app (seg tail : string) :
  no_slash seg = true ->
  (tail = "" \/ exists t, tail = String "/" t) ->
  span_segment (seg ++ tail) = (seg, tail).
Proof.
  intros Hseg Htail. induction seg as [|c seg IH]; simpl in *.
  - destruct Htail as [-> | [t ->]]; reflexivity.
  - apply andb_true_iff in Hseg. destruct Hseg as [Hc Hseg].
    apply negb_true_iff in Hc. rewrite Hc, (IH Hseg). reflexivity.
Qed.

(** The match at the head of a URL without scheme. *)
Lemma match_here_url (owner seg tail : string) :
  owner <> "" -> no_slash owner = true ->
  seg <> "" -> no_slash seg = true ->
  (tail = "" \/ exists t, tail = String "/" t) ->
  match_here ("github.com/" ++ owner ++ "/" ++ seg ++ tail) = Some (owner, seg).
Proof.
  intros Ho Hno Hs Hns Htail. unfold match_here.
  change (strip_prefix "github.com/" ("github.com/" ++ owner ++ "/" ++ seg ++ tail))
    with (Some (owner ++ String "/" (seg ++ tail))).
  cbv beta iota.
  rewrite (span_segment_segment owner (seg ++ tail) Hno).
  destruct owner as [|a owner]; [contradiction|].
  change ("/" =? "/")%char with true. cbv beta iota.
  rewrite (span_segment_app seg tail Hns Htail).
  destruct seg as [|b seg]; [contradiction|]. reflexivity.
Qed.

Lemma replace_from_absent (old new s : string) :
  contains old s = false -> replace_from old new 0 s = s.
Proof.
  induction s as [|c s IH]; intros H; simpl in *.
  - reflexivity.
  - apply orb_false_iff in H. destruct H as [Hp Hc].
    cbn [prefix] in Hp. destruct old as [|a old].
    + discriminate Hp.
    + rewrite Hp. f_equal. apply IH. exact Hc.
Qed.

(** [str.replace] gives the string back when there is nothing to replace. *)
Lemma str_replace_absent (old new s : string) :
  contains old s = false -> str_replace old new s = s.
Proof. apply replace_from_absent. Qed.

Lemma str_replace_absent_witness : str_replace ".git" "" "Hello-World" = "Hello-World".
Proof. apply (str_replace_absent ".git" "" "Hello-World"). reflexivity. Defined.

Lemma prefix_git_app (c : ascii) (s : string) :
  prefix ".git" (String c s) = false ->
  prefix ".git" (String c (s ++ ".git")) = false.
Proof.
  destruct s as [|c1 [|c2 [|c3 s]]]; cbn [prefix append];
    repeat match goal with
           | |- context [ascii_dec ?a ?b] => destruct (ascii_dec a b); subst
           end;
    intros H; try congruence; destruct s; discriminate H.
Qed.

(** The one occurrence of [.git] in a name that ends with it and holds no
    other is the suffix. *)
Lemma str_replace_git_suffix (name : string) :
  contains ".git" name = false -> str_replace ".git" "" (name ++ ".git") = name.
Proof.
  unfold str_replace. induction name as [|c name IH]; intros H.
  - reflexivity.
  - cbn [contains] in H. apply orb_false_iff in H. destruct H as [Hp Hc].
    apply prefix_git_app in Hp.
    change (String c name ++ ".git") with (String c (name ++ ".git")).
    cbn [replace_from]. rewrite Hp. f_equal. apply IH. exact Hc.
Qed.

(** X12: for an owner and a name without slashes, the name holding no
    [.git], the URL [https://github.com/<owner>/<name>] gives back exactly the
    owner and the name, with or without a [.git] suffix and whatever path
    follows the name. *)
Theorem extract_repo_info_https (owner name tail : string) :
  owner <> "" -> no_slash owner = true ->
  name <> "" -> no_slash name = true ->
  contains ".git" name = false ->
  (tail = "" \/ exists t, tail = String "/" t) ->
  extract_repo_info ("https://github.com/" ++ owner ++ "/" ++ name ++ tail)
  = (Some owner, Some name)
  /\ extract_repo_info ("https://github.com/" ++ owner ++ "/" ++ (name ++ ".git") ++ tail)
     = (Some owner, Some name).
Proof.
  intros Ho Hno Hn Hnn Hgit Htail.
  assert (Hsearch : forall seg, seg <> "" -> no_slash seg = true ->
            re_search ("https://github.com/" ++ owner ++ "/" ++ seg ++ tail)
            = Some (owner, seg)).
  { intros seg Hs Hns.
    pose proof (match_here_url owner seg tail Ho Hno Hs Hns Htail) as Hm.
    change ("https://github.com/" ++ owner ++ "/" ++ seg ++ tail)
      with (String "h" (String "t" (String "t" (String "p" (String "s"
             (String ":" (String "/" (String "/"
                ("github.com/" ++ owner ++ "/" ++ seg ++ tail))))))))).
    do 8 (unfold re_search; fold re_search;
          match goal with
          | |- context [match_here (String ?c ?s)] =>
              change (match_here (String c s)) with (@None (string * string))
          end; cbv beta iota).
    change ("github.com/" ++ owner ++ "/" ++ seg ++ tail)
      with (String "g" ("ithub.com/" ++ owner ++ "/" ++ seg ++ tail)) in *.
    unfold re_search; fold re_search. rewrite Hm. reflexivity. }
  unfold extract_repo_info. split.
  - rewrite (Hsearch name Hn Hnn).
    rewrite (str_replace_absent ".git" "" name Hgit). reflexivity.
  - rewrite (Hsearch (name ++ ".git")).
    + rewrite (str_replace_git_suffix name Hgit). reflexivity.
    + destruct name; discriminate.
    + clear -Hnn. induction name as [|c name IH]; simpl in *; [reflexivity|].
      apply andb_true_iff in Hnn. destruct Hnn as [Hc Hrest].
      rewrite Hc, (IH Hrest). reflexivity.
Qed.

Lemma extract_repo_info_https_witness :
  extract_repo_info "https://github.com/octocat/Hello-World/tree/main"
  = (Some "octocat", Some "Hello-World")
  /\ extract_repo_info "https://github.com/octocat/Hello-World.git/tree/main"
     = (Some "octocat", Some "Hello-World").
Proof.
  apply (extract_repo_info_https "octocat" "Hello-World" "/tree/main");
    try reflexivity; try discriminate.
  right. eexists. reflexivity.
Defined.

Lemma replace_from_no_slash (old : string) (skip : nat) (s : string) :
  no_slash s = true -> no_slash (replace_from old "" skip s) = true.
Proof.
  revert skip. induction s as [|c s IH]; intros skip H;
    cbn [replace_from no_slash] in *.
  - reflexivity.
  - apply andb_true_iff in H. destruct H as [Hc Hs].
    destruct skip as [|k]; [|apply IH; exact Hs].
    destruct (prefix old (String c s)); cbn [append no_slash].
    + apply IH. exact Hs.
    + rewrite Hc. apply IH. exact Hs.
Qed.

(** X13: [extract_repo_info] returns both parts or none. When it returns
    them, the URL holds [github.com/<owner>/<segment>] with a non-empty owner
    and a non-empty segment that ends at a slash or at the end of the URL;
    neither part holds a slash, and the name is the segment with its [.git]
    occurrences removed, which can leave it empty. *)
Theorem extract_repo_info_parts (url : string) :
  extract_repo_info url = (None, None)
  \/ exists owner seg pre post,
       extract_repo_info url = (Some owner, Some (str_replace ".git" "" seg))
       /\ url = pre ++ "github.com/" ++ owner ++ "/" ++ seg ++ post
       /\ owner <> "" /\ seg <> ""
       /\ no_slash owner = true
       /\ no_slash (str_replace ".git" "" seg) = true
       /\ (post = "" \/ exists t, post = String "/" t).
Proof.
  unfold extract_repo_info.
  destruct (re_search url) as [[owner seg]|] eqn:H; [right | left; reflexivity].
  destruct (re_search_sound url owner seg H)
    as (pre & post & Hurl & Ho & Hs & Hno & Hns & Hpost).
  exists owner, seg, pre, post.
  repeat split; try assumption.
  apply replace_from_no_slash. exact Hns.
Qed.

(** A name made of [.git] alone is matched and comes back empty. *)
Example extract_repo_info_empty_name :
  extract_repo_info "https://github.com/octocat/.git" = (Some "octocat", Some "").
Proof. reflexivity. Qed.

(** * Uploaded text files *)

Lemma no_linebreak_app (a b : string) :
  no_linebreak (a ++ b) = no_linebreak a && no_linebreak b.
Proof.
  unfold no_linebreak. induction a as [|c a IH]; simpl; [reflexivity|].
  rewrite IH. apply andb_assoc.
Qed.

Lemma splitlines_from_no_linebreak (n : nat) :
  forall s line,
    (String.length s <= n)%nat ->
    no_linebreak line = true ->
    forallb no_linebreak (splitlines_from line s) = true.
Proof.
  induction n as [|n IH]; intros s line Hlen Hline.
  - destruct s; [|simpl in Hlen; lia].
    simpl. destruct line; simpl; [reflexivity|]. rewrite Hline. reflexivity.
  - destruct s as [|c t]; cbn [splitlines_from].
    + destruct line; simpl; [reflexivity|]. rewrite Hline. reflexivity.
    + simpl in Hlen.
      destruct (c =? "013")%char.
      * destruct t as [|c' t'].
        -- simpl. rewrite Hline. reflexivity.
        -- simpl in Hlen.
           destruct (c' =? "010")%char; cbn [forallb]; rewrite Hline;
             apply IH; simpl; try lia; reflexivity.
      * destruct (is_linebreak c) eqn:Hc.
        -- cbn [forallb]. rewrite Hline. apply IH; [lia | reflexivity].
        -- apply IH; [lia|]. rewrite no_linebreak_app, Hline.
           unfold no_linebreak. simpl. rewrite Hc. reflexivity.
Qed.

Lemma lstrip_no_linebreak (s : string) :
  no_linebreak s = true -> no_linebreak (lstrip s) = true.
Proof.
  unfold no_linebreak. induction s as [|c s IH]; simpl; intros H; [reflexivity|].
  apply andb_true_iff in H. destruct H as [Hc Hs].
  destruct (is_space c); [apply IH; exact Hs|].
  simpl. rewrite Hc, Hs. reflexivity.
Qed.

Lemma rstrip_no_linebreak (s : string) :
  no_linebreak s = true -> no_linebreak (rstrip s) = true.
Proof.
  unfold no_linebreak. induction s as [|c s IH]; simpl; intros H; [reflexivity|].
  apply andb_true_iff in H. destruct H as [Hc Hs].
  specialize (IH Hs).
  destruct (rstrip s) as [|c' t'].
  - destruct (is_space c); simpl; [reflexivity|]. rewrite Hc. reflexivity.
  - cbn [list_ascii_of_string forallb] in *. rewrite Hc. exact IH.
Qed.

Lemma rstrip_idem (s : string) : rstrip (rstrip s) = rstrip s.
Proof.
  induction s as [|c s IH]; simpl; [reflexivity|].
  destruct (rstrip s) as [|c' t'] eqn:E.
  - destruct (is_space c) eqn:Hc; simpl; [reflexivity|]. rewrite Hc. reflexivity.
  - cbn [rstrip]. cbn [rstrip] in IH. rewrite IH. reflexivity.
Qed.

Lemma lstrip_head (s : string) :
  lstrip s = "" \/ exists c t, lstrip s = String c t /\ is_space c = false.
Proof.
  induction s as [|c s IH]; simpl; [left; reflexivity|].
  destruct (is_space c) eqn:Hc; [exact IH|]. right. eauto.
Qed.

Lemma rstrip_head (c : ascii) (t : string) :
  is_space c = false -> exists t', rstrip (String c t) = String c t'.
Proof.
  intros Hc. simpl. destruct (rstrip t); [rewrite Hc|]; eauto.
Qed.

Lemma strip_idem (s : string) : strip (strip s) = strip s.
Proof.
  unfold strip.
  destruct (lstrip_head s) as [E | (c & t & E & Hc)]; rewrite E.
  - reflexivity.
  - destruct (rstrip_head c t Hc) as [t' Ht']. rewrite Ht'.
    cbn [lstrip]. rewrite Hc. rewrite <- Ht'. apply rstrip_idem.
Qed.

Lemma stripped_lines_clean (content : string) :
  forallb clean_line (stripped_lines content) = true.
Proof.
  unfold stripped_lines, splitlines.
  pose proof (splitlines_from_no_linebreak (String.length content) content ""
                (le_n _) eq_refl) as Hnl.
  induction (splitlines_from "" content) as [|line lines IH]; simpl in *;
    [reflexivity|].
  apply andb_true_iff in Hnl. destruct Hnl as [Hline Hlines].
  destruct (strip line =? "")%string eqn:Hblank; simpl; [apply IH; exact Hlines|].
  rewrite (IH Hlines), andb_true_r.
  unfold clean_line. rewrite Hblank, strip_idem, String.eqb_refl. simpl.
  unfold strip. apply rstrip_no_linebreak, lstrip_no_linebreak. exact Hline.
Qed.

(** X14: for a file that is neither JSON nor YAML by its name,
    [process_uploaded_file] shows nothing and returns a [repositories] list in
    which every entry is non-empty, has no white space at either end and
    holds no line break. *)
Theorem process_uploaded_file_text
    (L : loaders) (f : uploaded_file) (content : string) :
  uf_decoded f = inl content ->
  is_text_name (uf_name f) = true ->
  process_uploaded_file L (Some f)
  = (JObj [("repositories", JArr (map JStr (stripped_lines content)))], [])
  /\ forallb clean_line (stripped_lines content) = true.
Proof.
  intros Hcontent Hname. split; [|apply stripped_lines_clean].
  unfold process_uploaded_file. rewrite Hcontent.
  unfold is_text_name in Hname. apply negb_true_iff in Hname.
  apply orb_false_iff in Hname. destruct Hname as [Hname Hyaml].
  apply orb_false_iff in Hname. destruct Hname as [Hjson Hyml].
  rewrite Hjson, Hyml, Hyaml. reflexivity.
Qed.

Lemma process_uploaded_file_text_witness :
  process_uploaded_file no_loaders
    (Some {| uf_name := "repos.txt";
             uf_decoded := inl ("  https://github.com/octocat/Hello-World "
                                ++ String "013" (String "010" (String "010" ""))
                                ++ String "009" "github.com/rocq-prover/rocq") |})
  = (JObj [("repositories",
            JArr [JStr "https://github.com/octocat/Hello-World";
                  JStr "github.com/rocq-prover/rocq"])], []).
Proof.
  destruct (process_uploaded_file_text no_loaders
              {| uf_name := "repos.txt";
                 uf_decoded := inl ("  https://github.com/octocat/Hello-World "
                                    ++ String "013" (String "010" (String "010" ""))
                                    ++ String "009" "github.com/rocq-prover/rocq") |}
              _ eq_refl eq_refl) as [H _].
  exact H.
Defined.

Lemma no_linebreak_head (c : ascii) (s : string) :
  no_linebreak (String c s) = true ->
  (c =? "013")%char = false /\ is_linebreak c = false /\ no_linebreak s = true.
Proof.
  unfold no_linebreak. simpl. intros H.
  apply andb_true_iff in H. destruct H as [Hc Hs].
  apply negb_true_iff in Hc. repeat split; try assumption.
  destruct (c =? "013")%char eqn:E; [|reflexivity].
  apply Ascii.eqb_eq in E. subst c. discriminate Hc.
Qed.

Lemma append_assoc (a b c : string) : (a ++ b) ++ c = a ++ b ++ c.
Proof. induction a as [|x a IH]; simpl; [reflexivity | f_equal; exact IH]. Qed.

Lemma append_nil_r (a : string) : a ++ "" = a.
Proof. induction a as [|x a IH]; simpl; [reflexivity | f_equal; exact IH]. Qed.

(** A line feed, or a carriage return and a line feed, ends the line. *)
Lemma splitlines_from_line (l line rest : string) :
  no_linebreak l = true ->
  splitlines_from line (l ++ String "010" rest) = (line ++ l) :: splitlines_from "" rest
  /\ splitlines_from line (l ++ String "013" (String "010" rest))
     = (line ++ l) :: splitlines_from "" rest.
Proof.
  revert line. induction l as [|c l IH]; intros line H.
  - rewrite append_nil_r. split; reflexivity.
  - destruct (no_linebreak_head c l H) as (Hcr & Hlb & Hl).
    change (String c l ++ String "010" rest) with (String c (l ++ String "010" rest)).
    change (String c l ++ String "013" (String "010" rest))
      with (String c (l ++ String "013" (String "010" rest))).
    cbn [splitlines_from]. rewrite Hcr, Hlb.
    destruct (IH (line ++ String c "") Hl) as [IH1 IH2].
    rewrite IH1, IH2, append_assoc. split; reflexivity.
Qed.

Lemma splitlines_unlines (lines : list string) :
  forallb no_linebreak lines = true ->
  splitlines (unlines lines) = lines /\ splitlines (unlines_crlf lines) = lines.
Proof.
  unfold splitlines. induction lines as [|l lines IH]; simpl; intros H.
  - split; reflexivity.
  - apply andb_true_iff in H. destruct H as [Hl Hlines].
    destruct (splitlines_from_line l "" (unlines lines) Hl) as [E _].
    destruct (splitlines_from_line l "" (unlines_crlf lines) Hl) as [_ E'].
    destruct (IH Hlines) as [IH1 IH2].
    rewrite E, E'. simpl. rewrite IH1, IH2. split; reflexivity.
Qed.

(** X15: the lines of a text file, ended by line feeds or by carriage
    returns and line feeds, come back in their order, each stripped of the
    white space around it, the blank ones left out. *)
Theorem process_uploaded_file_lines
    (L : loaders) (name : string) (lines : list string) :
  is_text_name name = true ->
  forallb no_linebreak lines = true ->
  let kept := map strip (filter (fun l => negb (strip l =? "")%string) lines) in
  process_uploaded_file L (Some {| uf_name := name; uf_decoded := inl (unlines lines) |})
  = (JObj [("repositories", JArr (map JStr kept))], [])
  /\ process_uploaded_file L
       (Some {| uf_name := name; uf_decoded := inl (unlines_crlf lines) |})
     = (JObj [("repositories", JArr (map JStr kept))], []).
Proof.
  intros Hname Hlines kept.
  destruct (splitlines_unlines lines Hlines) as [E1 E2].
  unfold process_uploaded_file. cbn [uf_decoded uf_name].
  unfold is_text_name in Hname. apply negb_true_iff in Hname.
  apply orb_false_iff in Hname. destruct Hname as [Hname Hyaml].
  apply orb_false_iff in Hname. destruct Hname as [Hjson Hyml].
  rewrite Hjson, Hyml, Hyaml. cbn [orb].
  unfold stripped_lines. rewrite E1, E2. split; reflexivity.
Qed.

Lemma process_uploaded_file_lines_witness :
  process_uploaded_file no_loaders
    (Some {| uf_name := "list";
             uf_decoded := inl (unlines [" github.com/a/b"; "  "; "github.com/c/d "]) |})
  = (JObj [("repositories", JArr [JStr "github.com/a/b"; JStr "github.com/c/d"])], []).
Proof.
  destruct (process_uploaded_file_lines no_loaders "list"
              [" github.com/a/b"; "  "; "github.com/c/d "] eq_refl eq_refl) as [H _].
  exact H.
Defined.

Lemma clean_lines_kept (urls : list string) :
  forallb clean_line urls = true ->
  forallb no_linebreak urls = true
  /\ map strip (filter (fun l => negb (strip l =? "")%string) urls) = urls.
Proof.
  induction urls as [|u urls IH]; simpl; intros H; [split; reflexivity|].
  apply andb_true_iff in H. destruct H as [Hu Hurls].
  destruct (IH Hurls) as [Hnl Hkept].
  unfold clean_line in Hu.
  apply andb_true_iff in Hu. destruct Hu as [Hu Hnlu].
  apply andb_true_iff in Hu. destruct Hu as [Hne Hstrip].
  apply String.eqb_eq in Hstrip.
  rewrite Hnlu, Hnl, Hstrip, Hne. simpl. rewrite Hstrip, Hkept. split; reflexivity.
Qed.

(** X16: a list of URLs that are not blank, carry no white space around them
    and hold no line break, written one per line, is read back as it was. *)
Theorem process_uploaded_file_round_trip
    (L : loaders) (name : string) (urls : list string) :
  is_text_name name = true ->
  forallb clean_line urls = true ->
  process_uploaded_file L (Some {| uf_name := name; uf_decoded := inl (unlines urls) |})
  = (JObj [("repositories", JArr (map JStr urls))], []).
Proof.
  intros Hname Hurls.
  destruct (clean_lines_kept urls Hurls) as [Hnl Hkept].
  destruct (splitlines_unlines urls Hnl) as [E _].
  unfold process_uploaded_file. cbn [uf_decoded uf_name].
  unfold is_text_name in Hname. apply negb_true_iff in Hname.
  apply orb_false_iff in Hname. destruct Hname as [Hname Hyaml].
  apply orb_false_iff in Hname. destruct Hname as [Hjson Hyml].
  rewrite Hjson, Hyml, Hyaml. cbn [orb].
  unfold stripped_lines. rewrite E, Hkept. reflexivity.
Qed.

Lemma process_uploaded_file_round_trip_witness :
  process_uploaded_file no_loaders
    (Some {| uf_name := "repos.txt";
             uf_decoded := inl (unlines ["https://github.com/octocat/Hello-World";
                                         "https://github.com/rocq-prover/rocq"]) |})
  = (JObj [("repositories",
            JArr [JStr "https://github.com/octocat/Hello-World";
                  JStr "https://github.com/rocq-prover/rocq"])], []).
Proof.
  apply (process_uploaded_file_round_trip no_loaders "repos.txt"
           ["https://github.com/octocat/Hello-World";
            "https://github.com/rocq-prover/rocq"]); reflexivity.
Defined.

(** * Error display *)

(** What a failed repository fetch raises, with the exact condition for a
    status code. *)
Lemma fetch_repo_data_raise_status (W : world) (owner repo : string) (e : exn) :
  fetch_repo_data W owner repo = Raise e ->
  exists message status remaining,
    e = GitHubAPIError message status remaining
    /\ forall s, status = Some s <->
         exists r reset, http_get W (repo_url owner repo) = Responded r
                         /\ status_code r = s
                         /\ s <> 200
                         /\ rate_limit_reset W r = Ok reset.
Proof.
  unfold fetch_repo_data. intros H.
  destruct (http_get W (repo_url owner repo)) as [r| | |] eqn:Hget;
    cbn [requests_get_result bind try_except] in H.
  2-4: injection H as <-; eexists _, _, _;
       (split; [reflexivity | intros s; split;
                              [intros Hs; discriminate Hs
                              |intros (r & reset & Hr & _); discriminate Hr]]).
  destruct (status_code r =? 200) eqn:Hstatus; cbn [negb] in H.
  - match type of H with
    | try_except ?c _ = _ => assert (Hpy : raises_py c); [|destruct c as [a|e']]
    end.
    + repeat (apply raises_py_bind; [auto with py_raises | intros ?]).
      auto with py_raises.
    + discriminate H.
    + destruct (Hpy e' eq_refl) as [p ->]. cbn [try_except] in H.
      injection H as <-. eexists _, _, _.
      split; [reflexivity|]. intros s; split; [intros Hs; discriminate Hs|].
      intros (r' & reset & Hr & Hs & Hne & _).
      injection Hr as <-. apply Z.eqb_eq in Hstatus. congruence.
  - destruct (handle_github_error_raises W r) as [e' He'].
    rewrite He' in H. cbn [bind try_except] in H.
    destruct (handle_github_error_cases W r e' He')
      as [(m & reset & Hreset & ->) | (Hreset & [[s' ->] | [t' ->]])];
      injection H as <-; eexists _, _, _;
      (split; [reflexivity|]); intros s; split.
    + intros Hs. injection Hs as <-. exists r, reset.
      apply Z.eqb_neq in Hstatus. auto.
    + intros (r' & reset' & Hr & Hs & _). injection Hr as <-. congruence.
    + intros Hs. discriminate Hs.
    + intros (r' & reset' & Hr & _ & _ & Hok). injection Hr as <-. congruence.
    + intros Hs. discriminate Hs.
    + intros (r' & reset' & Hr & _ & _ & Hok). injection Hr as <-. congruence.
Qed.

Lemma display_error_message_shape (W : world) (message : string) (status : option Z)
    (remaining : option string) :
  exists icon rest,
    display_error_message W (GitHubAPIError message status remaining)
    = St_error (icon ++ " " ++ message) :: rest
    /\ (rest = [] \/ exists guidance, rest = [guidance])
    /\ (rest <> [] <-> exists s, status = Some s /\ guided_status s = true).
Proof.
  unfold display_error_message, guided_status.
  destruct status as [s|].
  - destruct (s =? 403) eqn:H403, (s =? 429) eqn:H429, (s =? 404) eqn:H404,
      (s =? 401) eqn:H401; cbn [orb];
      first [ exists "🚫"; eexists; split; [reflexivity|]
            | exists "🔍"; eexists; split; [reflexivity|]
            | exists "🔒"; eexists; split; [reflexivity|]
            | exists "❌"; eexists; split; [reflexivity|] ];
      (split; [first [left; reflexivity | right; eexists; reflexivity]|]);
      split.
    all: try (intros _; exists s; split; [reflexivity|];
              rewrite H401, H403, H404, H429; reflexivity).
    all: try (intros _ E; discriminate E).
    + intros Hne. exfalso. apply Hne. reflexivity.
    + intros (s' & Hs & Hg). injection Hs as <-.
      rewrite H401, H403, H404, H429 in Hg. discriminate Hg.
  - exists "❌". eexists. split; [reflexivity|].
    split; [left; reflexivity|].
    split; [intros H; contradiction | intros (s & Hs & _); discriminate Hs].
Qed.

(** X17: when [fetch_repo_data] fails and its error is handed to
    [display_error_message], the page shows one error line that ends with the
    message of the error, followed by at most one box of guidance; the
    guidance is there exactly when a response arrived with status 401, 403,
    404 or 429 and a reset header that converts. A timeout, a connection
    failure or a malformed payload gets the error line alone. *)
Theorem repo_error_display (W : world) (owner repo : string) (e : exn) :
  fetch_repo_data W owner repo = Raise e ->
  exists icon rest,
    display_error_message W e = St_error (icon ++ " " ++ str_exn W e) :: rest
    /\ (rest = [] \/ exists guidance, rest = [guidance])
    /\ (rest <> [] <->
        exists r reset, http_get W (repo_url owner repo) = Responded r
                        /\ guided_status (status_code r) = true
                        /\ rate_limit_reset W r = Ok reset).
Proof.
  intros H.
  destruct (fetch_repo_data_raise_status W owner repo e H)
    as (message & status & remaining & -> & Hstatus).
  destruct (display_error_message_shape W message status remaining)
    as (icon & rest & Hshow & Hrest & Hguided).
  exists icon, rest. split; [exact Hshow|]. split; [exact Hrest|].
  rewrite Hguided. split.
  - intros (s & Hs & Hg). apply Hstatus in Hs.
    destruct Hs as (r & reset & Hr & <- & _ & Hreset). eauto.
  - intros (r & reset & Hr & Hg & Hreset).
    exists (status_code r). split; [|exact Hg].
    apply Hstatus. exists r, reset. repeat split; try assumption.
    intros E. rewrite E in Hg. discriminate Hg.
Qed.

(** The not-found response, and a timeout. *)
Lemma repo_error_display_witness :
  display_error_message (Utc.world_of (fun _ => Responded not_found_response))
    (GitHubAPIError "Repository not found. Please check the URL." (Some 404) (Some "59"))
  = [St_error "🔍 Repository not found. Please check the URL.";
     St_info ("Please ensure:" ++ nl
              ++ "1. The repository URL is correct" ++ nl
              ++ "2. The repository exists and is public" ++ nl
              ++ "3. You have typed the owner and repository name correctly")]
  /\ exists icon rest,
       display_error_message (Utc.world_of (fun _ => TimedOut))
         (GitHubAPIError "Request timed out. Please try again." None None)
       = St_error (icon ++ " " ++ "Request timed out. Please try again.") :: rest.
Proof.
  split; [reflexivity|].
  destruct (repo_error_display (Utc.world_of (fun _ => TimedOut))
              "octocat" "Hello-World"
              (GitHubAPIError "Request timed out. Please try again." None None)
              eq_refl) as (icon & rest & Hshow & _).
  exists icon, rest. exact Hshow.
Defined.

(** * Language tables *)

(** X18: the two language tables know the same languages: a language gets
    the default file types exactly when it gets the default description. *)
Theorem language_tables_agree (language : string) :
  get_language_file_types language = "Various files"
  <-> get_language_description language = "Programming language".
Proof.
  unfold get_language_file_types, get_language_description,
    language_files, descriptions.
  cbn [assoc].
  repeat match goal with
         | |- context [(?k =? language)%string] => destruct (k =? language)%string
         end;
    split; intros H; try reflexivity; discriminate H.
Qed.
